(** * flameshot-helper: the path deriver and the run of [main]

    A shallow embedding of [screenshot.py].

    - A Python [str] is a Rocq [string]; the path functions only look at the
      characters ['/'] and ['~'].
    - The configuration is the dict that [json.load] returns.  The model
      covers documents whose root is an object and whose members are scalars
      ([null], booleans, integers, strings) or objects of scalars; arrays and
      floating-point numbers are left out of the value type.
    - The configuration dict is shared between [main] and the
      [ScreenshotPaths] instance and is mutated by the constructor, so it
      lives in the state of a small state-and-exception monad; the same
      state carries the trace of the calls [main] makes to the outside. *)

From Stdlib Require Import ZArith Ascii DecimalString.
From stdpp Require Import base option list strings gmap.

(** ** Python values *)

Inductive scalar :=
  | SNone
  | SBool (b : bool)
  | SInt (n : Z)
  | SStr (s : string).

Inductive value :=
  | VScalar (x : scalar)
  | VDict (d : gmap string scalar).

Inductive exn :=
  | KeyError
  | IndexError
  | TypeError
  | AttributeError
  | ValueError
  | OSError
  | CalledProcessError.

Inductive result (A : Type) :=
  | Ok (a : A)
  | Raise (e : exn).
Arguments Ok {A} a.
Arguments Raise {A} e.

#[global] Instance scalar_eq_dec : EqDecision scalar.
Proof. solve_decision. Defined.

#[global] Instance exn_eq_dec : EqDecision exn.
Proof. solve_decision. Defined.

(** [bool(x)] *)
Definition truthy (x : scalar) : bool :=
  match x with
  | SNone => false
  | SBool b => b
  | SInt n => negb (n =? 0)%Z
  | SStr s => negb (String.eqb s "")
  end.

Definition truthy_value (v : value) : bool :=
  match v with
  | VScalar x => truthy x
  | VDict d => negb (bool_decide (d = ∅))
  end.

(** [str(x)], which is also what ["{}".format(x)] inserts *)
Definition py_str (x : scalar) : string :=
  match x with
  | SNone => "None"
  | SBool true => "True"
  | SBool false => "False"
  | SInt n => NilZero.string_of_int (Z.to_int n)
  | SStr s => s
  end.

(** A property of [ScreenshotPaths] returns a [str] or [None]. *)
Definition of_opt (o : option string) : scalar :=
  match o with
  | Some s => SStr s
  | None => SNone
  end.

(** ** [str] methods *)

Module Str.

Definition sep : ascii := "/"%char.

Definition startswith (pre s : string) : bool := String.prefix pre s.

(** [s.endswith(c)] for a one-character [c] *)
Fixpoint endswith (c : ascii) (s : string) : bool :=
  match s with
  | EmptyString => false
  | String a EmptyString => Ascii.eqb a c
  | String _ r => endswith c r
  end.

(** [s.rfind(c)]: the highest index of [c] in [s], [-1] when absent *)
Fixpoint rfind (c : ascii) (s : string) : Z :=
  match s with
  | EmptyString => (-1)%Z
  | String a r =>
      let j := rfind c r in
      if (0 <=? j)%Z then (j + 1)%Z
      else if Ascii.eqb a c then 0%Z else (-1)%Z
  end.

(** [s.find(c, start)]: the lowest index [>= start] of [c], [-1] when absent *)
Fixpoint find_from (c : ascii) (start : nat) (s : string) : Z :=
  match s with
  | EmptyString => (-1)%Z
  | String a r =>
      match start with
      | O => if Ascii.eqb a c then 0%Z
             else let j := find_from c O r in
                  if (0 <=? j)%Z then (j + 1)%Z else (-1)%Z
      | S k => let j := find_from c k r in
               if (0 <=? j)%Z then (j + 1)%Z else (-1)%Z
      end
  end.

(** [s[:i]] and [s[i:]] for [0 <= i] *)
Fixpoint take (i : nat) (s : string) : string :=
  match i, s with
  | S k, String a r => String a (take k r)
  | _, _ => EmptyString
  end.

Fixpoint drop (i : nat) (s : string) : string :=
  match i, s with
  | S k, String _ r => drop k r
  | _, _ => s
  end.

(** [c * n] *)
Fixpoint replicate (n : nat) (c : ascii) : string :=
  match n with
  | O => EmptyString
  | S k => String c (replicate k c)
  end.

(** [s.rstrip(c)] *)
Fixpoint rstrip (c : ascii) (s : string) : string :=
  match s with
  | EmptyString => EmptyString
  | String a r =>
      match rstrip c r with
      | EmptyString => if Ascii.eqb a c then EmptyString else String a EmptyString
      | r' => String a r'
      end
  end.

(** [s[-1]] *)
Fixpoint last (s : string) : option ascii :=
  match s with
  | EmptyString => None
  | String a EmptyString => Some a
  | String _ r => last r
  end.

Fixpoint contains (c : ascii) (s : string) : bool :=
  match s with
  | EmptyString => false
  | String a r => Ascii.eqb a c || contains c r
  end.

End Str.

(** ** [posixpath] *)

Module Posixpath.

(** [os.path.join(a, b)] *)
Definition join (a b : string) : string :=
  if Str.startswith "/" b then b
  else if String.eqb a "" || Str.endswith Str.sep a then a +:+ b
  else a +:+ "/" +:+ b.

(** [os.path.dirname(p)] *)
Definition dirname (p : string) : string :=
  let i := Z.to_nat (Str.rfind Str.sep p + 1) in
  let head := Str.take i p in
  if negb (String.eqb head "")
     && negb (String.eqb head (Str.replicate (String.length head) Str.sep))
  then Str.rstrip Str.sep head
  else head.

(** [os.path.basename(p)] *)
Definition basename (p : string) : string :=
  let i := Z.to_nat (Str.rfind Str.sep p + 1) in
  Str.drop i p.

End Posixpath.

(** ** Timestamps and [strftime] *)

(** A naive [datetime.datetime], as [datetime.datetime.now()] returns it. *)
Record datetime := {
  year : Z;
  month : Z;
  day : Z;
  hour : Z;
  minute : Z;
  second : Z;
  microsecond : Z
}.

Module Strftime.
Local Open Scope Z_scope.

Definition decimal (n : Z) : string := NilZero.string_of_int (Z.to_int n).

(** ["%0wd" % n] for [0 <= n] *)
Definition zero_pad (w : nat) (n : Z) : string :=
  let s := decimal n in
  Str.replicate (w - String.length s) "0" +:+ s.

Definition is_leap (y : Z) : bool :=
  (y mod 4 =? 0) && (negb (y mod 100 =? 0) || (y mod 400 =? 0)).

Definition days_in_month (y m : Z) : Z :=
  match m with
  | 2 => if is_leap y then 29 else 28
  | 4 | 6 | 9 | 11 => 30
  | _ => 31
  end.

Definition days_before_month (y m : Z) : Z :=
  match m with
  | 1 => 0 | 2 => 31 | 3 => 59 | 4 => 90 | 5 => 120 | 6 => 151 | 7 => 181
  | 8 => 212 | 9 => 243 | 10 => 273 | 11 => 304 | _ => 334
  end + (if (2 <? m) && is_leap y then 1 else 0).

Definition days_before_year (y : Z) : Z :=
  let p := y - 1 in p * 365 + p / 4 - p / 100 + p / 400.

Definition toordinal (dt : datetime) : Z :=
  days_before_year (year dt) + days_before_month (year dt) (month dt) + day dt.

(** [dt.weekday()]: Monday is 0 *)
Definition weekday (dt : datetime) : Z := (toordinal dt + 6) mod 7.

Definition valid (dt : datetime) : bool :=
  (1 <=? year dt) && (year dt <=? 9999)
  && (1 <=? month dt) && (month dt <=? 12)
  && (1 <=? day dt) && (day dt <=? days_in_month (year dt) (month dt))
  && (0 <=? hour dt) && (hour dt <? 24)
  && (0 <=? minute dt) && (minute dt <? 60)
  && (0 <=? second dt) && (second dt <? 60)
  && (0 <=? microsecond dt) && (microsecond dt <? 1000000).

Definition month_name (m : Z) : string :=
  match m with
  | 1 => "January" | 2 => "February" | 3 => "March" | 4 => "April"
  | 5 => "May" | 6 => "June" | 7 => "July" | 8 => "August"
  | 9 => "September" | 10 => "October" | 11 => "November" | _ => "December"
  end.

Definition weekday_name (d : Z) : string :=
  match d with
  | 0 => "Monday" | 1 => "Tuesday" | 2 => "Wednesday" | 3 => "Thursday"
  | 4 => "Friday" | 5 => "Saturday" | _ => "Sunday"
  end.

(** The conversions whose output is fixed by the fields of a naive
    datetime in the C locale.  Everything else (flags, widths, the C
    library's extensions, a year below 1000 under [%Y]) depends on the
    platform and is [None] here. *)
Definition directive (dt : datetime) (c : ascii) : option string :=
  if Ascii.eqb c "%" then Some "%"
  else if Ascii.eqb c "Y" then
    if 1000 <=? year dt then Some (decimal (year dt)) else None
  else if Ascii.eqb c "y" then Some (zero_pad 2 (year dt mod 100))
  else if Ascii.eqb c "m" then Some (zero_pad 2 (month dt))
  else if Ascii.eqb c "d" then Some (zero_pad 2 (day dt))
  else if Ascii.eqb c "H" then Some (zero_pad 2 (hour dt))
  else if Ascii.eqb c "I" then
    Some (zero_pad 2 (if hour dt mod 12 =? 0 then 12 else hour dt mod 12))
  else if Ascii.eqb c "p" then Some (if hour dt <? 12 then "AM" else "PM")
  else if Ascii.eqb c "M" then Some (zero_pad 2 (minute dt))
  else if Ascii.eqb c "S" then Some (zero_pad 2 (second dt))
  else if Ascii.eqb c "f" then Some (zero_pad 6 (microsecond dt))
  else if Ascii.eqb c "j" then
    Some (zero_pad 3 (days_before_month (year dt) (month dt) + day dt))
  else if Ascii.eqb c "B" then Some (month_name (month dt))
  else if Ascii.eqb c "b" then Some (Str.take 3 (month_name (month dt)))
  else if Ascii.eqb c "A" then Some (weekday_name (weekday dt))
  else if Ascii.eqb c "a" then Some (Str.take 3 (weekday_name (weekday dt)))
  else if Ascii.eqb c "w" then Some (decimal ((weekday dt + 1) mod 7))
  else if Ascii.eqb c "z" || Ascii.eqb c "Z" then Some ""
  else None.

(** Ordinary characters are copied; the model keeps to ASCII. *)
Definition literal (a : ascii) : bool :=
  let n := Z.of_nat (nat_of_ascii a) in (1 <=? n) && (n <? 128).

Fixpoint format (dt : datetime) (fmt : string) : option string :=
  match fmt with
  | EmptyString => Some EmptyString
  | String a rest =>
      if Ascii.eqb a "%" then
        match rest with
        | EmptyString => None
        | String c rest' =>
            d ← directive dt c;
            r ← format dt rest';
            Some (d +:+ r)
        end
      else if literal a then
        r ← format dt rest;
        Some (String a r)
      else None
  end.

(** What [dt.strftime(fmt)] is on every platform, when that is determined. *)
Definition table (dt : datetime) (fmt : string) : option string :=
  if valid dt then format dt fmt else None.

End Strftime.

(** ** The platform

    [datetime.strftime] hands the template to the C library, and
    [os.path.expanduser] reads the environment and the password database. *)

Class Platform := {
  dt_strftime : datetime → string → result string;
  dt_strftime_table : ∀ dt fmt s,
    Strftime.table dt fmt = Some s → dt_strftime dt fmt = Ok s;
  (** [os.environ.get("HOME")] *)
  environ_HOME : option string;
  (** [pwd.getpwuid(os.getuid()).pw_dir], [None] for [KeyError] *)
  getpwuid_dir : option string;
  (** [pwd.getpwnam(name).pw_dir], [None] for [KeyError] *)
  getpwnam_dir : string → option string
}.

(** os.path.expanduser(path) *)
Definition expanduser `{Platform} (path : string) : string :=
  if negb (Str.startswith "~" path) then path
  else
    let i := Str.find_from Str.sep 1 path in
    let i := if (i <? 0)%Z then String.length path else Z.to_nat i in
    let userhome :=
      if (i =? 1)%nat then
        match environ_HOME with
        | None => getpwuid_dir
        | Some h => Some h
        end
      else getpwnam_dir (Str.take (i - 1) (Str.drop 1 path)) in
    match userhome with
    | None => path
    | Some userhome =>
        let p := Str.rstrip Str.sep userhome +:+ Str.drop i path in
        if String.eqb p "" then "/" else p
    end.

Definition DEFAULT_CONFIG_LOCATION : string :=
  "~/.config/oroddlokken/flameshot-helper.json".

(** [args] is not looked at. *)
Definition get_config_location `{Platform} {A} (args : A) : string :=
  let path := expanduser DEFAULT_CONFIG_LOCATION in
  path.

(** ** The run-time state

    The state holds the one configuration dict of the run (both [main]'s
    [config] and [self.config] refer to it) and the calls made to the
    outside so far, oldest first. *)

Inductive event :=
  | CheckOutput (cmd : list scalar)
  | Run (cmd : list scalar)
  | Makedirs (path : string)
  | SaveFile (data : string) (path : string).

Record state := {
  st_config : gmap string value;
  st_trace : list event
}.

Definition M (A : Type) : Type := state → result A * state.

#[global] Instance M_ret : MRet M := λ A a st, (Ok a, st).

#[global] Instance M_bind : MBind M := λ A B f m st,
  match m st with
  | (Ok a, st') => f a st'
  | (Raise e, st') => (Raise e, st')
  end.

#[global] Instance M_fmap : FMap M := λ A B f m, a ← m; mret (f a).

Definition raise {A} (e : exn) : M A := λ st, (Raise e, st).

Definition lift {A} (r : result A) : M A := λ st, (r, st).

Definition get_config : M (gmap string value) := λ st, (Ok (st_config st), st).

Definition set_config (c : gmap string value) : M unit :=
  λ st, (Ok tt, {| st_config := c; st_trace := st_trace st |}).

Definition emit (e : event) : M unit :=
  λ st, (Ok tt, {| st_config := st_config st; st_trace := st_trace st ++ [e] |}).

(** ** Dict and subscript operations *)

(** [d[k]] on a dict *)
Definition getitem {V} (d : gmap string V) (k : string) : M V :=
  match d !! k with
  | Some v => mret v
  | None => raise KeyError
  end.

(** [v[k]] on a member of the configuration *)
Definition subscript (v : value) (k : string) : M scalar :=
  match v with
  | VDict d => getitem d k
  | VScalar _ => raise TypeError
  end.

(** [v.get(k, dflt)] on a member of the configuration *)
Definition get_method (v : value) (k : string) (dflt : scalar) : M scalar :=
  match v with
  | VDict d => mret (default dflt (d !! k))
  | VScalar _ => raise AttributeError
  end.

(** [x[-1]] *)
Definition index_last (x : scalar) : M ascii :=
  match x with
  | SStr s =>
      match Str.last s with
      | Some a => mret a
      | None => raise IndexError
      end
  | _ => raise TypeError
  end.

(** [config[k1][k2] = x] *)
Definition setitem_nested (k1 k2 : string) (x : scalar) : M unit :=
  config ← get_config;
  inner ← getitem config k1;
  match inner with
  | VDict d => set_config (<[k1 := VDict (<[k2 := x]> d)]> config)
  | VScalar _ => raise TypeError
  end.

(** A [str] is wanted: [os.fspath] and [strftime] raise [TypeError] otherwise. *)
Definition expect_str (v : value) : M string :=
  match v with
  | VScalar (SStr s) => mret s
  | _ => raise TypeError
  end.

(** ** [ScreenshotPaths] *)

Module ScreenshotPaths.

(** The instance; [self.config] is the dict in the state. *)
Record t := {
  dt : datetime;
  sftp_enabled : scalar
}.

Section methods.
Context `{Platform}.

Definition __init__ (timestamp : datetime) : M t :=
  config ← get_config;
  enabled ← get_method (default (VDict ∅) (config !! "sftp")) "enabled" (SBool false);
  let self := {| dt := timestamp; sftp_enabled := enabled |} in
  if truthy enabled then
    sftp ← getitem config "sftp";
    directory ← subscript sftp "directory";
    c ← index_last directory;
    if negb (Ascii.eqb c "/") then
      setitem_nested "sftp" "directory" (SStr (py_str directory +:+ "/"));;
      mret self
    else mret self
  else mret self.

Definition formatted_relative_path (self : t) : M string :=
  config ← get_config;
  t ← getitem config "fname";
  t ← expect_str t;
  lift (dt_strftime (dt self) t).

Definition relative_dirname (self : t) : M string :=
  p ← formatted_relative_path self;
  mret (Posixpath.dirname p).

Definition relative_basename (self : t) : M string :=
  p ← formatted_relative_path self;
  mret (Posixpath.basename p).

Definition local_path (self : t) : M string :=
  config ← get_config;
  directory ← getitem config "directory";
  directory ← expect_str directory;
  rel ← formatted_relative_path self;
  mret (Posixpath.join (expanduser directory) rel).

Definition local_folder (self : t) : M string :=
  p ← local_path self;
  mret (Posixpath.dirname p).

(** [os.path.join(a, b)] on Python values *)
Definition join_values (a : scalar) (b : string) : M string :=
  match a with
  | SStr a => mret (Posixpath.join a b)
  | _ => raise TypeError
  end.

Definition remote_directory (self : t) : M (option string) :=
  if negb (truthy (sftp_enabled self)) then mret None
  else
    config ← get_config;
    sftp ← getitem config "sftp";
    directory ← subscript sftp "directory";
    rel ← relative_dirname self;
    p ← join_values directory rel;
    mret (Some p).

Definition remote_path (self : t) : M (option string) :=
  if negb (truthy (sftp_enabled self)) then mret None
  else
    directory ← remote_directory self;
    base ← relative_basename self;
    p ← join_values (of_opt directory) base;
    mret (Some p).

Definition remote_url (self : t) : M (option string) :=
  if negb (truthy (sftp_enabled self)) then mret None
  else
    config ← get_config;
    sftp ← getitem config "sftp";
    baseurl ← get_method sftp "baseurl" SNone;
    if negb (truthy baseurl) then mret None
    else
      rel ← formatted_relative_path self;
      mret (Some (py_str baseurl +:+ rel)).

Definition remote_rsync_path (self : t) : M (option string) :=
  if negb (truthy (sftp_enabled self)) then mret None
  else
    config ← get_config;
    sftp ← getitem config "sftp";
    user ← subscript sftp "user";
    host ← subscript sftp "host";
    directory ← subscript sftp "directory";
    let remote_path := py_str user +:+ "@" +:+ py_str host +:+ ":" +:+ py_str directory in
    rel ← formatted_relative_path self;
    mret (Some (remote_path +:+ rel)).

(** Reading a property by name, for sequences of reads. *)
Inductive property :=
  | FormattedRelativePath
  | RelativeDirname
  | RelativeBasename
  | LocalPath
  | LocalFolder
  | RemoteDirectory
  | RemotePath
  | RemoteUrl
  | RemoteRsyncPath.

Definition read (p : property) (self : t) : M scalar :=
  match p with
  | FormattedRelativePath => SStr <$> formatted_relative_path self
  | RelativeDirname => SStr <$> relative_dirname self
  | RelativeBasename => SStr <$> relative_basename self
  | LocalPath => SStr <$> local_path self
  | LocalFolder => SStr <$> local_folder self
  | RemoteDirectory => of_opt <$> remote_directory self
  | RemotePath => of_opt <$> remote_path self
  | RemoteUrl => of_opt <$> remote_url self
  | RemoteRsyncPath => of_opt <$> remote_rsync_path self
  end.

(** The state after a run of reads, each read a statement of its own. *)
Fixpoint reads (ps : list property) (self : t) (st : state) : state :=
  match ps with
  | [] => st
  | p :: ps => reads ps self (snd (read p self st))
  end.

End methods.

End ScreenshotPaths.

(** ** Commands *)

Definition create_rsync_cmd (local_path remote_path : scalar) : list scalar :=
  [SStr "rsync";
   SStr "-Pr";
   SStr "--no-R"; SStr "--no-implied-dirs";
   SStr "-p"; SStr "--chmod=F775";
   local_path; remote_path].

(** [config] is the dict in the state. *)
Definition create_ssh_mkdir_cmd (path : scalar) : M (list scalar) :=
  config ← get_config;
  sftp ← getitem config "sftp";
  key ← subscript sftp "key";
  port ← subscript sftp "port";
  user ← subscript sftp "user";
  host ← subscript sftp "host";
  mret [SStr "ssh";
        SStr "-i"; key;
        SStr "-p"; SStr (py_str port);
        SStr (py_str user +:+ "@" +:+ py_str host);
        SStr ("mkdir -p " +:+ py_str path)].

(** ** The outside world

    What the external programs and the file system answer.  [subprocess]
    raises [TypeError] by itself when an argument is not a [str]. *)

Class World := {
  check_output_result : list string → result string;
  run_result : list string → result unit;
  makedirs_result : string → result unit;
  save_file_result : string → string → result unit
}.

Definition argv (cmd : list scalar) : option (list string) :=
  mapM (λ x, match x with SStr s => Some s | _ => None end) cmd.

Section process.
Context `{World}.

(** [subprocess.check_output(cmd)] *)
Definition check_output (cmd : list scalar) : M string :=
  emit (CheckOutput cmd);;
  match argv cmd with
  | Some args => lift (check_output_result args)
  | None => raise TypeError
  end.

(** [subprocess.run(cmd)] *)
Definition run (cmd : list scalar) : M unit :=
  emit (Run cmd);;
  match argv cmd with
  | Some args => lift (run_result args)
  | None => raise TypeError
  end.

Definition save_file (raw_data path : string) : M unit :=
  emit (SaveFile raw_data path);;
  lift (save_file_result raw_data path).

(** [os.makedirs(path, exist_ok=True)] *)
Definition makedirs (path : string) : M unit :=
  emit (Makedirs path);;
  lift (makedirs_result path).

Definition flameshot : M string :=
  check_output [SStr "flameshot"; SStr "gui"; SStr "-r"].

Definition kde_notify (fname url : scalar) : M unit :=
  run [SStr "notify-send"; fname; url].

Definition kde_set_clipboard (text : scalar) : M unit :=
  check_output [SStr "qdbus";
                SStr "org.kde.klipper";
                SStr "/klipper";
                SStr "setClipboardContents";
                text];;
  mret tt.

Definition xdg_open (path : scalar) : M unit :=
  check_output [SStr "xdg-open"; path];;
  mret tt.

End process.

(** ** [main]

    [dt] is what [datetime.datetime.now()] returned and the state holds the
    dict [read_config] returned.  The log lines are left out: each one
    formats a property that the next statement reads again from the same
    state. *)

Section main.
Context `{Platform} `{World}.
Import ScreenshotPaths.

Definition main (dt : datetime) : M unit :=
  raw_data ← flameshot;
  paths ← __init__ dt;
  folder ← local_folder paths;
  makedirs folder;;
  path ← local_path paths;
  save_file raw_data path;;
  xdg_path ← local_path paths;
  notify_summary ← relative_basename paths;
  notify_body ← local_path paths;
  config ← get_config;
  sftp_enabled ← get_method (default (VDict ∅) (config !! "sftp")) "enabled" (SBool false);
  '(xdg_path, notify_body) ←
    (if truthy sftp_enabled then
       directory ← remote_directory paths;
       ssh_mkdir_cmd ← create_ssh_mkdir_cmd (of_opt directory);
       check_output ssh_mkdir_cmd;;
       path ← local_path paths;
       rsync_path ← remote_rsync_path paths;
       check_output (create_rsync_cmd (SStr path) (of_opt rsync_path));;
       sftp ← getitem config "sftp";
       clipboard ← get_method sftp "clipboard" (SBool false);
       baseurl ← get_method sftp "baseurl" (SBool false);
       (if truthy clipboard && truthy baseurl then
          url ← remote_url paths;
          kde_set_clipboard (of_opt url)
        else mret tt);;
       if truthy baseurl then
         xdg_path ← remote_url paths;
         notify_body ← remote_url paths;
         mret (of_opt xdg_path, of_opt notify_body)
       else
         path ← remote_path paths;
         mret (SNone, of_opt path)
     else mret (SStr xdg_path, SStr notify_body));
  (if truthy_value (default (VScalar (SBool false)) (config !! "notify")) then
     kde_notify (SStr notify_summary) notify_body
   else mret tt);;
  if truthy xdg_path
     && truthy_value (default (VScalar (SBool false)) (config !! "open"))
  then xdg_open xdg_path
  else mret tt.

End main.

(** ** A reference platform and world

    The platform on which [strftime] does exactly what the table says and
    refuses the rest, with a home directory; and the world in which every
    external step succeeds. *)

Definition table_strftime (dt : datetime) (fmt : string) : result string :=
  match Strftime.table dt fmt with
  | Some s => Ok s
  | None => Raise ValueError
  end.

#[global, refine] Instance table_platform : Platform := {|
  dt_strftime := table_strftime;
  environ_HOME := Some "/home/user";
  getpwuid_dir := Some "/home/user";
  getpwnam_dir := λ _, None
|}.
Proof. intros dt fmt s Hs. unfold table_strftime. now rewrite Hs. Defined.

#[global] Instance quiet_world : World := {|
  check_output_result := λ _, Ok "";
  run_result := λ _, Ok tt;
  makedirs_result := λ _, Ok tt;
  save_file_result := λ _ _, Ok tt
|}.

(** ** Vocabulary of the statements *)

(** The state with the same configuration and no call made yet. *)
Definition bare (st : state) : state :=
  {| st_config := st_config st; st_trace := [] |}.

(** A computation that only looks at the configuration: it returns what it
    returns on the bare configuration, and leaves the state alone. *)
Definition reads_config {A} (m : M A) : Prop :=
  ∀ st, m st = (fst (m (bare st)), st).

(** Remote publishing is enabled: [config["sftp"]] is the dict [d] and its
    ["enabled"] member is true in the sense of [bool()]. *)
Definition sftp_enabled_in (config : gmap string value) (d : gmap string scalar) : Prop :=
  config !! "sftp" = Some (VDict d) ∧ truthy (default (SBool false) (d !! "enabled")) = true.

(** Remote publishing is disabled or absent. *)
Definition sftp_disabled_in (config : gmap string value) : Prop :=
  config !! "sftp" = None
  ∨ ∃ d, config !! "sftp" = Some (VDict d)
         ∧ truthy (default (SBool false) (d !! "enabled")) = false.

(** No base URL: the member is missing, or empty in the sense of [bool()]. *)
Definition no_baseurl (d : gmap string scalar) : Prop :=
  truthy (default SNone (d !! "baseurl")) = false.

(** The configuration after [config["sftp"]["directory"] = dir]. *)
Definition with_remote_directory (config : gmap string value)
    (d : gmap string scalar) (dir : string) : gmap string value :=
  <["sftp" := VDict (<["directory" := SStr dir]> d)]> config.

(** The state the constructor leaves behind when publishing is enabled and
    the remote directory is [dir]. *)
Definition normalized (st : state) (d : gmap string scalar) (dir : string) : state :=
  if Str.endswith Str.sep dir then st
  else {| st_config := with_remote_directory (st_config st) d (dir +:+ "/");
          st_trace := st_trace st |}.

(** The state after one more call to the outside. *)
Definition push (st : state) (e : event) : state :=
  {| st_config := st_config st; st_trace := st_trace st ++ [e] |}.

(** [config.get("sftp", {}).get("enabled", False)], when it does not raise *)
Definition enabled_flag (config : gmap string value) : scalar :=
  match default (VDict ∅) (config !! "sftp") with
  | VDict d => default (SBool false) (d !! "enabled")
  | VScalar _ => SBool false
  end.

(** [config.get("notify", False)] and [config.get("open", False)] as conditions *)
Definition notify_on (config : gmap string value) : bool :=
  truthy_value (default (VScalar (SBool false)) (config !! "notify")).

Definition open_on (config : gmap string value) : bool :=
  truthy_value (default (VScalar (SBool false)) (config !! "open")).

Definition is_xdg_open (e : event) : bool :=
  match e with
  | CheckOutput (SStr "xdg-open" :: _) => true
  | _ => false
  end.

Definition is_notify (e : event) : bool :=
  match e with
  | Run (SStr "notify-send" :: _) => true
  | _ => false
  end.

(** 2024-03-05 14:22:01 *)
Definition stamp (us : Z) : datetime :=
  {| year := 2024; month := 3; day := 5;
     hour := 14; minute := 22; second := 1; microsecond := us |}.

(** The configurations of the examples. *)
Definition local_only : gmap string value :=
  {[ "directory" := VScalar (SStr "/tmp/shots");
     "fname" := VScalar (SStr "%Y/%m/%d/%H%M%S.png") ]}.

Definition example_sftp (dir : string) (baseurl : scalar) : gmap string scalar :=
  {[ "enabled" := SBool true;
     "host" := SStr "host";
     "user" := SStr "user";
     "key" := SStr "/home/user/.ssh/id_ed25519";
     "port" := SInt 22;
     "directory" := SStr dir;
     "baseurl" := baseurl;
     "clipboard" := SBool true ]}.

Definition publishing (fname dir : string) (baseurl : scalar) : gmap string value :=
  {[ "directory" := VScalar (SStr "/tmp/shots");
     "fname" := VScalar (SStr fname);
     "notify" := VScalar (SBool true);
     "open" := VScalar (SBool true);
     "sftp" := VDict (example_sftp dir baseurl) ]}.

(** The state in which [main] starts. *)
Definition start (config : gmap string value) : state :=
  {| st_config := config; st_trace := [] |}.

(** A configuration without remote publishing, with both flags set. *)
Definition local_notifying : gmap string value :=
  {[ "directory" := VScalar (SStr "/tmp/shots");
     "fname" := VScalar (SStr "%Y/%m/%d/%H%M%S.png");
     "notify" := VScalar (SBool true);
     "open" := VScalar (SBool true) ]}.

(** The run of [main] on the reference platform, in the quiet world. *)
Definition reference_run (config : gmap string value) : result unit * state :=
  main (H := table_platform) (H0 := quiet_world) (stamp 0) (start config).

(** [s] with every run of separators replaced by one separator. *)
Fixpoint squeeze_sep (s : string) : string :=
  match s with
  | String a r =>
      if Ascii.eqb a Str.sep && Str.startswith "/" r then squeeze_sep r
      else String a (squeeze_sep r)
  | EmptyString => EmptyString
  end.

(** The instance and the state that the constructor leaves for
    [publishing fname "/srv/shots" baseurl]. *)
Definition published_paths : ScreenshotPaths.t :=
  {| ScreenshotPaths.dt := stamp 0; ScreenshotPaths.sftp_enabled := SBool true |}.

Definition published (fname : string) (baseurl : scalar) : state :=
  start (with_remote_directory (publishing fname "/srv/shots" baseurl)
           (example_sftp "/srv/shots" baseurl) "/srv/shots/").

(** The transfer address is the remote path behind ["{user}@{host}:"], for
    every template output that does not begin with a separator. *)
Definition transfer_address_extends_remote_path `{Platform}
    (timestamp : datetime) (st : state) : Prop :=
  ∀ self st' d rel user host,
    ScreenshotPaths.__init__ timestamp st = (Ok self, st') →
    sftp_enabled_in (st_config st) d →
    d !! "user" = Some user →
    d !! "host" = Some host →
    ScreenshotPaths.formatted_relative_path self st' = (Ok rel, st') →
    Str.startswith "/" rel = false →
    ∃ p, ScreenshotPaths.remote_path self st' = (Ok (Some p), st')
         ∧ ScreenshotPaths.remote_rsync_path self st'
           = (Ok (Some (py_str user +:+ "@" +:+ py_str host +:+ ":" +:+ p)), st').

(** *** Vocabulary of the statements about whole runs *)

(** The call [e] was made and returned: it raised no exception.  For
    [check_output] that is an exit status of zero; [subprocess.run] is
    called without [check], so it returns whatever the exit status, and
    raises only when the program cannot be started. *)
Definition returned `{World} (e : event) : Prop :=
  match e with
  | CheckOutput cmd =>
      ∃ args out, argv cmd = Some args ∧ check_output_result args = Ok out
  | Run cmd => ∃ args, argv cmd = Some args ∧ run_result args = Ok tt
  | Makedirs path => makedirs_result path = Ok tt
  | SaveFile data path => save_file_result data path = Ok tt
  end.

(** A computation that stops at the first call that raises: started after
    calls that all returned, it ends after calls that all returned, except
    that the last one may have raised when it raises. *)
Definition orderly `{World} {A} (m : M A) : Prop :=
  ∀ st r st',
    Forall returned (st_trace st) →
    m st = (r, st') →
    match r with
    | Ok _ => Forall returned (st_trace st')
    | Raise _ =>
        ∃ done last, st_trace st' = done ++ last
                     ∧ length last ≤ 1 ∧ Forall returned done
    end.

(** A computation that leaves the configuration as it is. *)
Definition keeps_config {A} (m : M A) : Prop :=
  ∀ st r st', m st = (r, st') → st_config st' = st_config st.

(** A call that reaches the remote host or the clipboard. *)
Definition is_publishing_call (e : event) : bool :=
  match e with
  | CheckOutput (SStr "ssh" :: _) => true
  | CheckOutput (SStr "rsync" :: _) => true
  | CheckOutput (SStr "qdbus" :: _) => true
  | _ => false
  end.

Definition flameshot_call : event :=
  CheckOutput [SStr "flameshot"; SStr "gui"; SStr "-r"].

(** The events of the three desktop steps. *)
Definition clipboard_call (text : string) : event :=
  CheckOutput [SStr "qdbus"; SStr "org.kde.klipper"; SStr "/klipper";
               SStr "setClipboardContents"; SStr text].

Definition notify_call (summary body : string) : event :=
  Run [SStr "notify-send"; SStr summary; SStr body].

Definition open_call (target : string) : event :=
  CheckOutput [SStr "xdg-open"; SStr target].

(** The world in which everything succeeds but [rsync]. *)
Definition failing_rsync_world : World := {|
  check_output_result := λ args,
    match args with
    | "rsync" :: _ => Raise CalledProcessError
    | _ => Ok ""
    end;
  run_result := λ _, Ok tt;
  makedirs_result := λ _, Ok tt;
  save_file_result := λ _ _, Ok tt
|}.

(** More configurations and runs for the examples. *)
Definition sftp_only (d : gmap string scalar) : gmap string value :=
  {[ "sftp" := VDict d ]}.

Definition sftp_only_scalar (x : scalar) : gmap string value :=
  {[ "sftp" := VScalar x ]}.

Definition no_template : gmap string value :=
  {[ "directory" := VScalar (SStr "/tmp/shots");
     "notify" := VScalar (SBool true) ]}.

Definition home_config : gmap string value :=
  {[ "directory" := VScalar (SStr "~/Pictures");
     "fname" := VScalar (SStr "%Y/%m/%d/%H%M%S.png") ]}.

Definition local_paths : ScreenshotPaths.t :=
  {| ScreenshotPaths.dt := stamp 0; ScreenshotPaths.sftp_enabled := SBool false |}.

Definition failing_run : result unit * state :=
  main (H := table_platform) (H0 := failing_rsync_world) (stamp 0)
    (start (publishing "%Y/%m/%d/%H%M%S.png" "/srv/shots" SNone)).

(** ** The monad *)

Section monad.
Context {A B : Type}.

Lemma bind_ok (m : M A) (f : A → M B) st a st' :
  m st = (Ok a, st') → (m ≫= f) st = f a st'.
Proof. intros Hm. unfold mbind, M_bind. now rewrite Hm. Qed.

Lemma bind_raise (m : M A) (f : A → M B) st e st' :
  m st = (Raise e, st') → (m ≫= f) st = (Raise e, st').
Proof. intros Hm. unfold mbind, M_bind. now rewrite Hm. Qed.

Lemma bind_inv (m : M A) (f : A → M B) st r st' :
  (m ≫= f) st = (r, st') →
  (∃ e, m st = (Raise e, st') ∧ r = Raise e)
  ∨ (∃ a st1, m st = (Ok a, st1) ∧ f a st1 = (r, st')).
Proof.
  unfold mbind, M_bind. destruct (m st) as [[a|e] st1]; intros Hr.
  - right. eauto.
  - left. exists e. now inversion Hr.
Qed.

Lemma bind_split (m : M A) (f : A → M B) st r st' :
  (m ≫= f) st = (r, st') →
  ∃ rb stb, m st = (rb, stb)
            ∧ match rb with
              | Ok a => f a stb = (r, st')
              | Raise e => r = Raise e ∧ st' = stb
              end.
Proof.
  unfold mbind, M_bind. destruct (m st) as [[a|e] st1]; intros Hr.
  - now exists (Ok a), st1.
  - exists (Raise e), st1. now inversion Hr.
Qed.

Lemma reads_config_ret (a : A) : reads_config (mret a : M A).
Proof. now intros st. Qed.

Lemma reads_config_raise e : reads_config (raise e : M A).
Proof. now intros st. Qed.

Lemma reads_config_lift (r : result A) : reads_config (lift r).
Proof. now intros st. Qed.

Lemma reads_config_bind (m : M A) (f : A → M B) :
  reads_config m → (∀ a, reads_config (f a)) → reads_config (m ≫= f).
Proof.
  intros Hm Hf st. unfold mbind, M_bind.
  pose proof (Hm (bare st)) as Hb. change (bare (bare st)) with (bare st) in Hb.
  rewrite (Hm st). destruct (m (bare st)) as [[a|e] st0]; simpl in *; [|done].
  inversion Hb; subst st0. apply (Hf a st).
Qed.

Lemma reads_config_fmap (g : A → B) (m : M A) :
  reads_config m → reads_config (g <$> m).
Proof.
  intros Hm. unfold fmap, M_fmap.
  apply reads_config_bind; [done|]. now intros a st.
Qed.

Lemma reads_config_if (b : bool) (m1 m2 : M A) :
  reads_config m1 → reads_config m2 → reads_config (if b then m1 else m2).
Proof. now destruct b. Qed.

Lemma reads_config_state (m : M A) st : reads_config m → snd (m st) = st.
Proof. intros Hm. now rewrite (Hm st). Qed.

Lemma reads_config_run (m : M A) st r st' :
  reads_config m → m st = (r, st') → st' = st ∧ m (bare st) = (r, bare st).
Proof.
  intros Hm Hr. pose proof (Hm st) as E. rewrite Hr in E.
  injection E as Hfst Hst. subst st'. split; [done|].
  rewrite (Hm (bare st)). change (bare (bare st)) with (bare st).
  now rewrite <- Hfst.
Qed.

Lemma reads_config_same (m : M A) st1 st2 :
  reads_config m → st_config st1 = st_config st2 → fst (m st1) = fst (m st2).
Proof.
  intros Hm Hc. rewrite (Hm st1), (Hm st2). unfold bare. now rewrite Hc.
Qed.

End monad.

Lemma reads_config_get_config : reads_config get_config.
Proof. now intros st. Qed.

Lemma reads_config_getitem {V} (d : gmap string V) k : reads_config (getitem d k).
Proof. unfold getitem. destruct (d !! k); [apply reads_config_ret|apply reads_config_raise]. Qed.

Lemma reads_config_subscript v k : reads_config (subscript v k).
Proof. destruct v; [apply reads_config_raise|apply reads_config_getitem]. Qed.

Lemma reads_config_get_method v k x : reads_config (get_method v k x).
Proof. destruct v; [apply reads_config_raise|apply reads_config_ret]. Qed.

Lemma reads_config_expect_str v : reads_config (expect_str v).
Proof. destruct v as [[]|]; now intros st. Qed.

Create HintDb reads discriminated.

#[export] Hint Resolve reads_config_ret reads_config_raise reads_config_lift
  reads_config_get_config reads_config_getitem reads_config_subscript
  reads_config_get_method reads_config_expect_str reads_config_fmap : reads.

#[export] Hint Extern 2 (reads_config (_ ≫= _)) =>
  apply reads_config_bind; [|intros ?] : reads.

#[export] Hint Extern 2 (reads_config (if _ then _ else _)) =>
  apply reads_config_if : reads.

(** ** Strings and paths *)

#[local] Arguments String.append !_ _ / : simpl nomatch.

Lemma append_nil_r s : s +:+ "" = s.
Proof. induction s as [|a s IH]; [done|]. cbn. f_equal. exact IH. Qed.

Lemma append_assoc s1 s2 s3 : (s1 +:+ s2) +:+ s3 = s1 +:+ s2 +:+ s3.
Proof. induction s1 as [|a s1 IH]; [done|]. cbn. f_equal. exact IH. Qed.

Lemma endswith_last c s :
  Str.endswith c s = match Str.last s with
                     | Some a => Ascii.eqb a c
                     | None => false
                     end.
Proof. induction s as [|a [|b s] IH]; simpl in *; done. Qed.

Lemma last_is_Some a s : is_Some (Str.last (String a s)).
Proof.
  revert a. induction s as [|b s IH]; intros a; simpl; [by eexists|]. apply IH.
Qed.

Lemma last_None s : Str.last s = None → s = "".
Proof.
  destruct s as [|a s]; [done|]. intros Hl.
  destruct (last_is_Some a s) as [x Hx]. congruence.
Qed.

Lemma endswith_snoc c s : Str.endswith c (s +:+ String c "") = true.
Proof.
  induction s as [|a s IH]; simpl; [apply Ascii.eqb_refl|].
  destruct (s +:+ String c "") eqn:E; [|done].
  destruct s; discriminate.
Qed.

Lemma endswith_inv c s : Str.endswith c s = true → ∃ s0, s = s0 +:+ String c "".
Proof.
  induction s as [|a s IH]; [done|]. simpl. destruct s as [|b s].
  - intros ->%Ascii.eqb_eq. now exists "".
  - intros [s0 Hs0]%IH. exists (String a s0). simpl. now rewrite Hs0.
Qed.

Lemma endswith_app c s t : t ≠ "" → Str.endswith c (s +:+ t) = Str.endswith c t.
Proof.
  intros Ht. induction s as [|a s IH]; simpl; [done|].
  destruct (s +:+ t) eqn:E; [|done].
  destruct s; simpl in E; [done|discriminate].
Qed.

Lemma startswith_sep s :
  Str.startswith "/" s = match s with
                         | String a _ => Ascii.eqb a Str.sep
                         | EmptyString => false
                         end.
Proof.
  destruct s as [|a s]; [done|]. unfold Str.startswith. cbn [String.prefix].
  destruct (ascii_dec "/" a) as [<-|Hne].
  - now destruct s.
  - symmetry. apply Ascii.eqb_neq. unfold Str.sep. congruence.
Qed.

Lemma startswith_app s t :
  s ≠ "" → Str.startswith "/" (s +:+ t) = Str.startswith "/" s.
Proof. intros Hs. rewrite !startswith_sep. now destruct s. Qed.

Lemma contains_startswith s : Str.contains Str.sep s = false → Str.startswith "/" s = false.
Proof.
  rewrite startswith_sep. destruct s as [|a s]; [done|]. simpl.
  now intros [? ?]%orb_false_iff.
Qed.

Lemma rfind_lower c s : (-1 ≤ Str.rfind c s)%Z.
Proof.
  induction s as [|a s IH]; simpl; [lia|].
  destruct (Z.leb_spec 0 (Str.rfind c s)); [lia|]. destruct (Ascii.eqb a c); lia.
Qed.

Lemma rfind_contains c s : (0 ≤ Str.rfind c s)%Z ↔ Str.contains c s = true.
Proof.
  induction s as [|a s IH]; simpl; [split; [lia|done]|].
  destruct (Z.leb_spec 0 (Str.rfind c s)) as [Hj|Hj].
  - rewrite (proj1 IH Hj), orb_true_r. split; [done|lia].
  - destruct (Str.contains c s); [destruct IH as [_ IH]; specialize (IH eq_refl); lia|].
    rewrite orb_false_r. destruct (Ascii.eqb a c); split; (lia || done).
Qed.

Lemma rfind_absent c s : Str.contains c s = false → Str.rfind c s = (-1)%Z.
Proof.
  intros Hc. pose proof (rfind_lower c s). pose proof (rfind_contains c s) as [Hr _].
  destruct (Z.leb_spec 0 (Str.rfind c s)) as [Hj|Hj]; [|lia].
  rewrite (Hr Hj) in Hc. done.
Qed.

Lemma take_drop i s : Str.take i s +:+ Str.drop i s = s.
Proof.
  revert s. induction i as [|i IH]; intros [|a s]; simpl; try done.
  now rewrite IH.
Qed.

(** The split at the last separator: [p[:i]] and [p[i:]] for
    [i = p.rfind("/") + 1], when there is a separator. *)
Lemma split_last_sep p :
  Str.contains Str.sep p = true →
  ∃ h, Str.take (Z.to_nat (Str.rfind Str.sep p + 1)) p = h +:+ "/"
       ∧ Str.drop (Z.to_nat (Str.rfind Str.sep p + 1)) p
         = Str.drop (String.length h + 1) p
       ∧ p = h +:+ "/" +:+ Str.drop (String.length h + 1) p
       ∧ Str.contains Str.sep (Str.drop (String.length h + 1) p) = false.
Proof.
  induction p as [|a p IH]; [done|]. simpl Str.contains. simpl Str.rfind.
  destruct (Z.leb_spec 0 (Str.rfind Str.sep p)) as [Hj|Hj].
  - intros _. destruct (IH (proj1 (rfind_contains _ _) Hj)) as (h & Ht & Hd & Hp & Hc).
    exists (String a h).
    replace (Z.to_nat (Str.rfind Str.sep p + 1 + 1))
      with (S (Z.to_nat (Str.rfind Str.sep p + 1))) by lia.
    simpl. repeat split; [now rewrite Ht|done| |done]. f_equal. exact Hp.
  - assert (Hn : Str.contains Str.sep p = false).
    { destruct (Str.contains Str.sep p) eqn:E; [|done].
      apply rfind_contains in E. lia. }
    rewrite Hn, orb_false_r. intros Ha. rewrite Ha. apply Ascii.eqb_eq in Ha as ->.
    exists "". simpl. done.
Qed.

Lemma rstrip_snoc c s : Str.rstrip c (s +:+ String c "") = Str.rstrip c s.
Proof.
  induction s as [|a s IH]; simpl; [now rewrite Ascii.eqb_refl|]. now rewrite IH.
Qed.

Lemma rstrip_id c s : Str.endswith c s = false → Str.rstrip c s = s.
Proof.
  induction s as [|a s IH]; [done|]. simpl. destruct s as [|b s].
  - simpl. now intros ->.
  - intros Hs. now rewrite (IH Hs).
Qed.

Lemma rstrip_empty c s :
  Str.rstrip c s = "" → s = Str.replicate (String.length s) c.
Proof.
  induction s as [|a s IH]; [done|]. simpl.
  destruct (Str.rstrip c s) eqn:E; [|done].
  destruct (Ascii.eqb_spec a c) as [->|]; [|done]. intros _. f_equal. now apply IH.
Qed.

Lemma replicate_head n c a s : Str.replicate n c = String a s → a = c.
Proof. destruct n; simpl; congruence. Qed.

Lemma dirname_flat p :
  Str.contains Str.sep p = false → Posixpath.dirname p = "" ∧ Posixpath.basename p = p.
Proof.
  intros Hc. unfold Posixpath.dirname, Posixpath.basename.
  rewrite (rfind_absent _ _ Hc). simpl. now destruct p.
Qed.

Lemma dirname_empty p : Posixpath.dirname p = "" ↔ Str.contains Str.sep p = false.
Proof.
  split; [|apply dirname_flat].
  destruct (Str.contains Str.sep p) eqn:Hc; [|done].
  destruct (split_last_sep p Hc) as (h & Ht & _). unfold Posixpath.dirname.
  rewrite Ht. destruct (_ && _) eqn:Hb.
  - apply andb_true_iff in Hb as [_ Hb]. intros E%rstrip_empty.
    apply negb_true_iff, String.eqb_neq in Hb. done.
  - destruct h; done.
Qed.

Lemma contains_app c s t :
  Str.contains c (s +:+ t) = Str.contains c s || Str.contains c t.
Proof. induction s as [|a s IH]; simpl; [done|]. now rewrite IH, orb_assoc. Qed.

Lemma replicate_shift n c s :
  Str.replicate (S n) c +:+ s = Str.replicate n c +:+ String c s.
Proof. induction n as [|n IH]; simpl in *; [done|]. now rewrite IH. Qed.

Lemma rstrip_head c a s : a ≠ c → ∃ r, Str.rstrip c (String a s) = String a r.
Proof.
  intros Hne. simpl. destruct (Str.rstrip c s); [|eauto].
  apply Ascii.eqb_neq in Hne as ->. eauto.
Qed.

Lemma rstrip_endswith c s : Str.endswith c (Str.rstrip c s) = false.
Proof.
  induction s as [|a s IH]; [done|]. simpl. destruct (Str.rstrip c s) as [|b r].
  - destruct (Ascii.eqb a c) eqn:E; [done|]. simpl. exact E.
  - exact IH.
Qed.

(** What [rstrip] removes is a run of the stripped character. *)
Lemma rstrip_replicate c s : ∃ k, s = Str.rstrip c s +:+ Str.replicate k c.
Proof.
  induction s as [|a s [k IH]]; [now exists 0|]. simpl.
  destruct (Str.rstrip c s) as [|b r].
  - simpl in IH. destruct (Ascii.eqb_spec a c) as [->|_].
    + exists (S k). simpl. now f_equal.
    + exists k. simpl. now f_equal.
  - exists k. cbn [String.append]. now f_equal.
Qed.

(** A string has one split at its last separator. *)
Lemma last_sep_unique h1 t1 h2 t2 :
  Str.contains Str.sep t1 = false →
  Str.contains Str.sep t2 = false →
  h1 +:+ "/" +:+ t1 = h2 +:+ "/" +:+ t2 →
  h1 = h2 ∧ t1 = t2.
Proof.
  intros H1 H2. revert h2. induction h1 as [|a h1 IH]; intros [|b h2] E; simpl in E.
  - now injection E.
  - injection E as <- ->. rewrite contains_app in H1. simpl in H1.
    now rewrite orb_true_r in H1.
  - injection E as -> <-. rewrite contains_app in H2. simpl in H2.
    now rewrite orb_true_r in H2.
  - injection E as -> E. now destruct (IH _ E) as [-> ->].
Qed.

Lemma squeeze_sep_double x y :
  squeeze_sep (x +:+ String Str.sep (String Str.sep y))
  = squeeze_sep (x +:+ String Str.sep y).
Proof.
  induction x as [|a x IH]; cbn [String.append squeeze_sep].
  - now rewrite !startswith_sep.
  - rewrite IH, !startswith_sep. now destruct x.
Qed.

Lemma squeeze_sep_run x k y :
  squeeze_sep (x +:+ Str.replicate k Str.sep +:+ "/" +:+ y)
  = squeeze_sep (x +:+ "/" +:+ y).
Proof.
  induction k as [|k IH]; [done|].
  rewrite replicate_shift, <- IH.
  rewrite <- !(append_assoc x (Str.replicate k Str.sep)).
  apply (squeeze_sep_double (x +:+ Str.replicate k Str.sep) y).
Qed.

(** A relative path with a directory part splits into the directory as
    [dirname] returns it, the separators [dirname] strips, one more
    separator, and the file name. *)
Lemma dirname_basename_relative p :
  Str.contains Str.sep p = true →
  Str.startswith "/" p = false →
  ∃ k,
    p = Posixpath.dirname p +:+ Str.replicate k Str.sep
        +:+ "/" +:+ Posixpath.basename p
    ∧ Posixpath.dirname p ≠ ""
    ∧ Str.startswith "/" (Posixpath.dirname p) = false
    ∧ Str.endswith Str.sep (Posixpath.dirname p) = false
    ∧ Str.contains Str.sep (Posixpath.basename p) = false.
Proof.
  intros Hc Hs. destruct (split_last_sep p Hc) as (h & Ht & Hdr & Hp & Hb).
  destruct h as [|a h].
  { rewrite Hp, startswith_sep in Hs. simpl in Hs. done. }
  assert (Ha : a ≠ Str.sep).
  { intros ->. rewrite Hp, startswith_sep in Hs. simpl in Hs. done. }
  assert (Hdir : Posixpath.dirname p = Str.rstrip Str.sep (String a h)).
  { unfold Posixpath.dirname. rewrite Ht.
    assert (Hall : String.eqb (String a h +:+ "/")
              (Str.replicate (String.length (String a h +:+ "/")) Str.sep) = false).
    { apply String.eqb_neq. intros E. simpl in E. now injection E as Ea _. }
    rewrite Hall. simpl negb. simpl andb. cbv iota. apply rstrip_snoc. }
  destruct (rstrip_replicate Str.sep (String a h)) as [k Hk].
  destruct (rstrip_head Str.sep a h Ha) as [r Hr].
  exists k. rewrite Hdir. unfold Posixpath.basename. rewrite Hdr.
  split; [|split; [|split; [|split]]].
  - rewrite Hp at 1. rewrite Hk at 1. now rewrite !append_assoc.
  - now rewrite Hr.
  - rewrite Hr, startswith_sep. now apply Ascii.eqb_neq.
  - apply rstrip_endswith.
  - exact Hb.
Qed.

(** ** The properties only read the configuration *)

Section properties.
Context `{Platform}.
Import ScreenshotPaths.

Lemma reads_formatted_relative_path self : reads_config (formatted_relative_path self).
Proof. unfold formatted_relative_path. auto 10 with reads. Qed.

Lemma reads_relative_dirname self : reads_config (relative_dirname self).
Proof. unfold relative_dirname. auto using reads_formatted_relative_path with reads. Qed.

Lemma reads_relative_basename self : reads_config (relative_basename self).
Proof. unfold relative_basename. auto using reads_formatted_relative_path with reads. Qed.

Lemma reads_local_path self : reads_config (local_path self).
Proof. unfold local_path. auto 10 using reads_formatted_relative_path with reads. Qed.

Lemma reads_local_folder self : reads_config (local_folder self).
Proof. unfold local_folder. auto using reads_local_path with reads. Qed.

Lemma reads_join_values a b : reads_config (join_values a b).
Proof. destruct a; now intros st. Qed.

Lemma reads_remote_directory self : reads_config (remote_directory self).
Proof.
  unfold remote_directory.
  auto 10 using reads_relative_dirname, reads_join_values with reads.
Qed.

Lemma reads_remote_path self : reads_config (remote_path self).
Proof.
  unfold remote_path.
  auto 10 using reads_remote_directory, reads_relative_basename, reads_join_values
    with reads.
Qed.

Lemma reads_remote_url self : reads_config (remote_url self).
Proof. unfold remote_url. auto 10 using reads_formatted_relative_path with reads. Qed.

Lemma reads_remote_rsync_path self : reads_config (remote_rsync_path self).
Proof.
  unfold remote_rsync_path. auto 12 using reads_formatted_relative_path with reads.
Qed.

Lemma reads_read p self : reads_config (read p self).
Proof.
  destruct p; simpl; apply reads_config_fmap;
    auto using reads_formatted_relative_path, reads_relative_dirname,
      reads_relative_basename, reads_local_path, reads_local_folder,
      reads_remote_directory, reads_remote_path, reads_remote_url,
      reads_remote_rsync_path.
Qed.

Lemma reads_fixed ps self st : reads ps self st = st.
Proof.
  induction ps as [|p ps IH]; simpl; [done|].
  now rewrite (reads_config_state _ _ (reads_read p self)).
Qed.

End properties.

(** ** The constructor *)

Ltac munfold :=
  cbv beta iota zeta delta
    [mbind M_bind mret M_ret raise lift get_config set_config
     getitem subscript get_method index_last setitem_nested expect_str].

Tactic Notation "munfold" "in" hyp(H) :=
  cbv beta iota zeta delta
    [mbind M_bind mret M_ret raise lift get_config set_config
     getitem subscript get_method index_last setitem_nested expect_str] in H.

Section constructor.
Context `{Platform}.
Import ScreenshotPaths.

Lemma init_disabled timestamp st :
  sftp_disabled_in (st_config st) →
  ∃ self, __init__ timestamp st = (Ok self, st)
          ∧ dt self = timestamp ∧ truthy (sftp_enabled self) = false.
Proof.
  intros [Hs|(d & Hs & He)]; unfold __init__; munfold; simpl; rewrite Hs; simpl.
  - eexists. split; [reflexivity|]. done.
  - rewrite He. eexists. split; [reflexivity|]. done.
Qed.

Lemma init_enabled timestamp st d dir :
  sftp_enabled_in (st_config st) d →
  d !! "directory" = Some (SStr dir) →
  dir ≠ "" →
  __init__ timestamp st
  = (Ok {| dt := timestamp; sftp_enabled := default (SBool false) (d !! "enabled") |},
     normalized st d dir).
Proof.
  intros [Hs He] Hd Hne. unfold __init__, normalized; munfold; simpl.
  rewrite Hs; simpl. rewrite He, Hd. rewrite endswith_last.
  destruct (Str.last dir) as [c|] eqn:Hl; [|now apply last_None in Hl].
  destruct (Ascii.eqb c Str.sep) eqn:Hc.
  - unfold Str.sep in Hc. now rewrite Hc.
  - unfold Str.sep in Hc. rewrite Hc. simpl. now rewrite Hs.
Qed.

Lemma init_empty_directory timestamp st d :
  sftp_enabled_in (st_config st) d →
  d !! "directory" = Some (SStr "") →
  __init__ timestamp st = (Raise IndexError, st).
Proof.
  intros [Hs He] Hd. unfold __init__; munfold; simpl.
  rewrite Hs; simpl. now rewrite He, Hd.
Qed.

Lemma init_inv timestamp st self st' :
  __init__ timestamp st = (Ok self, st') →
  truthy (sftp_enabled self) = true →
  ∃ d dir, sftp_enabled_in (st_config st) d
           ∧ d !! "directory" = Some (SStr dir) ∧ dir ≠ ""
           ∧ dt self = timestamp ∧ st' = normalized st d dir.
Proof.
  intros Hi Ht. destruct (st_config st !! "sftp") as [[x|d]|] eqn:Hs.
  - unfold __init__ in Hi; munfold in Hi; simpl in Hi. rewrite Hs in Hi. done.
  - set (e := default (SBool false) (d !! "enabled")).
    destruct (truthy e) eqn:He.
    + assert (Hen : sftp_enabled_in (st_config st) d) by done.
      destruct (d !! "directory") as [[| | |dir]|] eqn:Hd;
        try (unfold __init__ in Hi; munfold in Hi; simpl in Hi; rewrite Hs in Hi;
             simpl in Hi; fold e in Hi; rewrite He, ?Hd in Hi; done).
      destruct (decide (dir = "")) as [->|Hne].
      * rewrite (init_empty_directory _ _ _ Hen Hd) in Hi. done.
      * rewrite (init_enabled _ _ _ _ Hen Hd Hne) in Hi.
        injection Hi as <- <-. exists d, dir. done.
    + unfold __init__ in Hi; munfold in Hi; simpl in Hi. rewrite Hs in Hi. simpl in Hi.
      fold e in Hi. rewrite He in Hi. injection Hi as <- <-. simpl in Ht.
      congruence.
  - unfold __init__ in Hi; munfold in Hi; simpl in Hi. rewrite Hs in Hi. simpl in Hi.
    injection Hi as <- <-. done.
Qed.

(** What the normalized state holds. *)
Lemma normalized_lookup st d dir :
  st_config st !! "sftp" = Some (VDict d) →
  d !! "directory" = Some (SStr dir) →
  dir ≠ "" →
  ∃ d' base,
    st_config (normalized st d dir) !! "sftp" = Some (VDict d')
    ∧ d' !! "directory" = Some (SStr base)
    ∧ Str.endswith Str.sep base = true
    ∧ base = (if Str.endswith Str.sep dir then dir else dir +:+ "/")
    ∧ (∀ k, k ≠ "directory" → d' !! k = d !! k)
    ∧ (∀ k, k ≠ "sftp" → st_config (normalized st d dir) !! k = st_config st !! k)
    ∧ st_trace (normalized st d dir) = st_trace st.
Proof.
  intros Hs Hd Hne. unfold normalized.
  destruct (Str.endswith Str.sep dir) eqn:He.
  - exists d, dir. done.
  - exists (<["directory" := SStr (dir +:+ "/")]> d), (dir +:+ "/"). simpl.
    unfold with_remote_directory. rewrite lookup_insert_eq.
    split; [done|]. rewrite lookup_insert_eq. split; [done|].
    split; [apply endswith_snoc|]. split; [done|].
    split; [|split; [|done]]; intros k Hk; now rewrite lookup_insert_ne.
Qed.

End constructor.

(** ** The derived paths *)

Section derived.
Context `{Platform}.
Import ScreenshotPaths.

Lemma init_enabled_inv timestamp st self st' d :
  __init__ timestamp st = (Ok self, st') →
  sftp_enabled_in (st_config st) d →
  ∃ dir, d !! "directory" = Some (SStr dir) ∧ dir ≠ ""
         ∧ self = {| dt := timestamp;
                     sftp_enabled := default (SBool false) (d !! "enabled") |}
         ∧ st' = normalized st d dir.
Proof.
  intros Hi Hen.
  destruct (d !! "directory") as [[| | |dir]|] eqn:Hd;
    try (destruct Hen as [Hs He]; unfold __init__ in Hi; munfold in Hi; simpl in Hi;
         rewrite Hs in Hi; simpl in Hi; rewrite He, ?Hd in Hi; done).
  destruct (decide (dir = "")) as [->|Hne].
  - rewrite (init_empty_directory _ _ _ Hen Hd) in Hi. done.
  - rewrite (init_enabled _ _ _ _ Hen Hd Hne) in Hi.
    injection Hi as <- <-. now exists dir.
Qed.

Lemma relative_dirname_eq self st rel :
  formatted_relative_path self st = (Ok rel, st) →
  relative_dirname self st = (Ok (Posixpath.dirname rel), st).
Proof. intros Hf. unfold relative_dirname. now rewrite (bind_ok _ _ _ _ _ Hf). Qed.

Lemma relative_basename_eq self st rel :
  formatted_relative_path self st = (Ok rel, st) →
  relative_basename self st = (Ok (Posixpath.basename rel), st).
Proof. intros Hf. unfold relative_basename. now rewrite (bind_ok _ _ _ _ _ Hf). Qed.

Lemma local_path_eq self st dir rel :
  st_config st !! "directory" = Some (VScalar (SStr dir)) →
  formatted_relative_path self st = (Ok rel, st) →
  local_path self st = (Ok (Posixpath.join (expanduser dir) rel), st).
Proof.
  intros Hd Hf. unfold local_path. munfold. simpl. rewrite Hd. now rewrite Hf.
Qed.

Lemma remote_disabled self st :
  truthy (sftp_enabled self) = false →
  remote_directory self st = (Ok None, st)
  ∧ remote_path self st = (Ok None, st)
  ∧ remote_url self st = (Ok None, st)
  ∧ remote_rsync_path self st = (Ok None, st).
Proof.
  intros He. unfold remote_directory, remote_path, remote_url, remote_rsync_path.
  now rewrite He.
Qed.

Lemma remote_directory_eq self st d base rel :
  truthy (sftp_enabled self) = true →
  st_config st !! "sftp" = Some (VDict d) →
  d !! "directory" = Some (SStr base) →
  formatted_relative_path self st = (Ok rel, st) →
  remote_directory self st
  = (Ok (Some (Posixpath.join base (Posixpath.dirname rel))), st).
Proof.
  intros He Hs Hd Hf. unfold remote_directory. rewrite He. cbn [negb].
  pose proof (relative_dirname_eq _ _ _ Hf) as Hr.
  munfold. simpl. rewrite Hs, Hd. now rewrite Hr.
Qed.

Lemma remote_path_eq self st d base rel :
  truthy (sftp_enabled self) = true →
  st_config st !! "sftp" = Some (VDict d) →
  d !! "directory" = Some (SStr base) →
  formatted_relative_path self st = (Ok rel, st) →
  remote_path self st
  = (Ok (Some (Posixpath.join (Posixpath.join base (Posixpath.dirname rel))
                              (Posixpath.basename rel))), st).
Proof.
  intros He Hs Hd Hf. unfold remote_path. rewrite He. cbn [negb].
  rewrite (bind_ok _ _ _ _ _ (remote_directory_eq _ _ _ _ _ He Hs Hd Hf)).
  now rewrite (bind_ok _ _ _ _ _ (relative_basename_eq _ _ _ Hf)).
Qed.

Lemma remote_url_none self st d :
  truthy (sftp_enabled self) = true →
  st_config st !! "sftp" = Some (VDict d) →
  no_baseurl d →
  remote_url self st = (Ok None, st).
Proof.
  intros He Hs Hb. unfold remote_url. rewrite He. munfold. simpl.
  rewrite Hs. unfold no_baseurl in Hb. now rewrite Hb.
Qed.

Lemma remote_url_eq self st d baseurl rel :
  truthy (sftp_enabled self) = true →
  st_config st !! "sftp" = Some (VDict d) →
  d !! "baseurl" = Some baseurl →
  truthy baseurl = true →
  formatted_relative_path self st = (Ok rel, st) →
  remote_url self st = (Ok (Some (py_str baseurl +:+ rel)), st).
Proof.
  intros He Hs Hb Ht Hf. unfold remote_url. rewrite He. munfold. simpl.
  rewrite Hs, Hb. simpl. rewrite Ht. simpl. now rewrite Hf.
Qed.

Lemma remote_rsync_path_eq self st d user host base rel :
  truthy (sftp_enabled self) = true →
  st_config st !! "sftp" = Some (VDict d) →
  d !! "user" = Some user →
  d !! "host" = Some host →
  d !! "directory" = Some (SStr base) →
  formatted_relative_path self st = (Ok rel, st) →
  remote_rsync_path self st
  = (Ok (Some ((py_str user +:+ "@" +:+ py_str host +:+ ":" +:+ base) +:+ rel)), st).
Proof.
  intros He Hs Hu Hh Hd Hf. unfold remote_rsync_path. rewrite He. munfold. simpl.
  rewrite Hs, Hu, Hh, Hd. now rewrite Hf.
Qed.

Lemma formatted_relative_path_eq self st t :
  st_config st !! "fname" = Some (VScalar (SStr t)) →
  formatted_relative_path self st = (dt_strftime (dt self) t, st).
Proof. intros Hf. unfold formatted_relative_path. munfold. simpl. now rewrite Hf. Qed.

Lemma stamp_table us :
  (0 ≤ us < 1000000)%Z →
  Strftime.table (stamp us) "%Y/%m/%d/%H%M%S.png" = Some "2024/03/05/142201.png".
Proof.
  intros [H0 H1]. unfold Strftime.table, Strftime.valid.
  change (microsecond (stamp us)) with us.
  rewrite (proj2 (Z.leb_le 0 us) H0), (proj2 (Z.ltb_lt us 1000000) H1).
  reflexivity.
Qed.

Lemma stamp_formatted self st us :
  (0 ≤ us < 1000000)%Z →
  dt self = stamp us →
  st_config st !! "fname" = Some (VScalar (SStr "%Y/%m/%d/%H%M%S.png")) →
  formatted_relative_path self st = (Ok "2024/03/05/142201.png", st).
Proof.
  intros Hus Hdt Hf. rewrite (formatted_relative_path_eq _ _ _ Hf), Hdt.
  now rewrite (dt_strftime_table _ _ _ (stamp_table us Hus)).
Qed.

(** C1: when remote publishing is disabled or absent, the constructor
    returns and [remote_directory], [remote_path], [remote_url] and
    [remote_rsync_path] are all [None], whatever the timestamp. *)
Theorem remote_properties_absent_when_disabled timestamp st :
  sftp_disabled_in (st_config st) →
  ∃ self, __init__ timestamp st = (Ok self, st)
          ∧ remote_directory self st = (Ok None, st)
          ∧ remote_path self st = (Ok None, st)
          ∧ remote_url self st = (Ok None, st)
          ∧ remote_rsync_path self st = (Ok None, st).
Proof.
  intros Hdis. destruct (init_disabled timestamp st Hdis) as (self & Hi & _ & He).
  exists self. split; [done|]. now apply remote_disabled.
Qed.

(** C2: on an instance built from a configuration with remote publishing
    enabled and no base URL (missing, or empty), [remote_url] is [None]
    while [remote_path] is a string, whenever the template formats. *)
Theorem remote_url_absent_remote_path_defined timestamp st self st' d rel :
  __init__ timestamp st = (Ok self, st') →
  sftp_enabled_in (st_config st) d →
  no_baseurl d →
  formatted_relative_path self st' = (Ok rel, st') →
  remote_url self st' = (Ok None, st')
  ∧ ∃ p, remote_path self st' = (Ok (Some p), st').
Proof.
  intros Hi Hen Hb Hf.
  destruct (init_enabled_inv _ _ _ _ _ Hi Hen) as (dir & Hd & Hne & -> & ->).
  destruct Hen as [Hs He].
  destruct (normalized_lookup st d dir Hs Hd Hne)
    as (d' & base & Hs' & Hd' & _ & _ & Hk & _).
  split.
  - apply (remote_url_none _ _ d'); [done|done|].
    unfold no_baseurl. now rewrite Hk.
  - eexists. now apply (remote_path_eq _ _ d' base rel).
Qed.

(** C3: constructing over the remote base directory ["/srv/shots"] stores
    ["/srv/shots/"]; no sequence of property reads changes the stored
    configuration afterwards, and constructing again over the normalized
    configuration leaves it as it is. *)
Theorem normalization_happens_once timestamp st d :
  sftp_enabled_in (st_config st) d →
  d !! "directory" = Some (SStr "/srv/shots") →
  let st' := {| st_config := with_remote_directory (st_config st) d "/srv/shots/";
                st_trace := st_trace st |} in
  ∃ self, __init__ timestamp st = (Ok self, st')
          ∧ (∀ ps, reads ps self st' = st')
          ∧ (∀ timestamp', ∃ self', __init__ timestamp' st' = (Ok self', st')).
Proof.
  intros Hen Hd st'. eexists. split; [|split].
  - now rewrite (init_enabled timestamp st d "/srv/shots" Hen Hd).
  - intros ps. apply reads_fixed.
  - intros timestamp'. destruct Hen as [Hs He]. eexists.
    rewrite (init_enabled timestamp' st'
               (<["directory" := SStr "/srv/shots/"]> d) "/srv/shots/"); [done| |
      apply lookup_insert_eq|done].
    split; [apply lookup_insert_eq|]. now rewrite lookup_insert_ne.
Qed.

(** C4: for the configuration [{directory: "/tmp/shots",
    fname: "%Y/%m/%d/%H%M%S.png"}] and the timestamp 2024-03-05 14:22:01,
    [local_path] is ["/tmp/shots/2024/03/05/142201.png"]. *)
Theorem local_path_example us trace :
  (0 ≤ us < 1000000)%Z →
  let st := {| st_config := local_only; st_trace := trace |} in
  (paths ← __init__ (stamp us); local_path paths) st
  = (Ok "/tmp/shots/2024/03/05/142201.png", st).
Proof.
  intros Hus st.
  destruct (init_disabled (stamp us) st) as (self & Hi & Hdt & _); [now left|].
  rewrite (bind_ok _ _ _ _ _ Hi).
  rewrite (local_path_eq self st "/tmp/shots" "2024/03/05/142201.png");
    [done|done|].
  now apply (stamp_formatted self st us).
Qed.

(** C5: with remote publishing enabled, base URL ["https://img.example.com/"],
    remote base directory ["/srv/shots"], user ["user"], host ["host"], the
    template ["%Y/%m/%d/%H%M%S.png"] and the timestamp 2024-03-05 14:22:01,
    [remote_url] is ["https://img.example.com/2024/03/05/142201.png"] and
    [remote_rsync_path] is ["user@host:/srv/shots/2024/03/05/142201.png"]. *)
Theorem remote_example us st d :
  (0 ≤ us < 1000000)%Z →
  sftp_enabled_in (st_config st) d →
  st_config st !! "fname" = Some (VScalar (SStr "%Y/%m/%d/%H%M%S.png")) →
  d !! "baseurl" = Some (SStr "https://img.example.com/") →
  d !! "directory" = Some (SStr "/srv/shots") →
  d !! "user" = Some (SStr "user") →
  d !! "host" = Some (SStr "host") →
  ∃ self st',
    __init__ (stamp us) st = (Ok self, st')
    ∧ remote_url self st'
      = (Ok (Some "https://img.example.com/2024/03/05/142201.png"), st')
    ∧ remote_rsync_path self st'
      = (Ok (Some "user@host:/srv/shots/2024/03/05/142201.png"), st').
Proof.
  intros Hus Hen Hf Hb Hd Hu Hh. pose proof Hen as [Hs He].
  eexists _, _. split; [now apply (init_enabled _ st d "/srv/shots")|].
  destruct (normalized_lookup st d "/srv/shots" Hs Hd)
    as (d' & base & Hs' & Hd' & _ & -> & Hk & Hc & _); [done|].
  set (self := {| dt := stamp us; sftp_enabled := _ |}).
  set (st' := normalized st d "/srv/shots") in *.
  assert (Hrel : formatted_relative_path self st'
                 = (Ok "2024/03/05/142201.png", st')).
  { apply (stamp_formatted self st' us); [done|done|]. now rewrite Hc. }
  split.
  - rewrite (remote_url_eq self st' d' (SStr "https://img.example.com/")
               "2024/03/05/142201.png"); [done|done|done|now rewrite Hk|done|done].
  - change (d' !! "directory" = Some (SStr "/srv/shots/")) in Hd'.
    rewrite (remote_rsync_path_eq self st' d' (SStr "user") (SStr "host")
               "/srv/shots/" "2024/03/05/142201.png" He Hs');
      [done|now rewrite Hk|now rewrite Hk|done|done].
Qed.

End derived.

(** ** Templates without a directory, and the empty remote directory *)

Section joins.
Context `{Platform}.
Import ScreenshotPaths.

Lemma join_dir_empty base : Str.endswith Str.sep base = true → Posixpath.join base "" = base.
Proof.
  intros He. unfold Posixpath.join. rewrite startswith_sep, He, orb_true_r.
  apply append_nil_r.
Qed.

Lemma join_dir_relative base p :
  Str.endswith Str.sep base = true →
  Str.startswith "/" p = false →
  Posixpath.join base p = base +:+ p.
Proof. intros He Hp. unfold Posixpath.join. now rewrite Hp, He, orb_true_r. Qed.

(** C8: when the formatted relative path has an empty directory component,
    [remote_directory] is the normalized remote base directory itself and
    [remote_path] is that directory joined with the file name. *)
Theorem remote_paths_of_flat_template timestamp st self st' d rel :
  __init__ timestamp st = (Ok self, st') →
  sftp_enabled_in (st_config st) d →
  formatted_relative_path self st' = (Ok rel, st') →
  Posixpath.dirname rel = "" →
  ∃ d' base,
    st_config st' !! "sftp" = Some (VDict d')
    ∧ d' !! "directory" = Some (SStr base)
    ∧ Str.endswith Str.sep base = true
    ∧ remote_directory self st' = (Ok (Some base), st')
    ∧ remote_path self st'
      = (Ok (Some (Posixpath.join base (Posixpath.basename rel))), st')
    ∧ Posixpath.join base (Posixpath.basename rel) = base +:+ rel.
Proof.
  intros Hi Hen Hf Hdir.
  destruct (init_enabled_inv _ _ _ _ _ Hi Hen) as (dir & Hd & Hne & -> & ->).
  destruct Hen as [Hs He].
  destruct (normalized_lookup st d dir Hs Hd Hne)
    as (d' & base & Hs' & Hd' & Hb & _).
  exists d', base. split; [done|]. split; [done|]. split; [done|].
  pose proof (proj1 (dirname_empty rel) Hdir) as Hc.
  destruct (dirname_flat rel Hc) as [_ Hbase].
  split; [|split].
  - rewrite (remote_directory_eq _ _ d' base rel); [|done..].
    now rewrite Hdir, join_dir_empty.
  - rewrite (remote_path_eq _ _ d' base rel); [|done..].
    now rewrite Hdir, join_dir_empty.
  - rewrite Hbase. apply join_dir_relative; [done|]. now apply contains_startswith.
Qed.

(** C9: with remote publishing enabled and a string as remote base
    directory, the constructor raises [IndexError] exactly when that string
    is empty, and returns an instance exactly when it is not. *)
Theorem init_needs_nonempty_directory timestamp st d dir :
  sftp_enabled_in (st_config st) d →
  d !! "directory" = Some (SStr dir) →
  (dir = "" ↔ __init__ timestamp st = (Raise IndexError, st))
  ∧ (dir ≠ "" ↔ ∃ self st', __init__ timestamp st = (Ok self, st')).
Proof.
  intros Hen Hd. destruct (decide (dir = "")) as [->|Hne].
  - pose proof (init_empty_directory timestamp st d Hen Hd) as Hi.
    split; [done|]. split; [done|]. intros (self & st' & Hi'). congruence.
  - pose proof (init_enabled timestamp st d dir Hen Hd Hne) as Hi.
    split; [|split; eauto]. split; [done|]. congruence.
Qed.

(** C10, as amended: when the formatted relative path does not begin with a
    separator, [remote_rsync_path] is ["{user}@{host}:"] followed by a path
    that is [remote_path] up to runs of separators, and it is
    ["{user}@{host}:"] followed by [remote_path] itself exactly when no
    doubled separator stands right before the file name, that is, when
    every ["//"] in the formatted relative path has a separator somewhere
    behind it. *)
Theorem transfer_address_and_remote_path
    timestamp st self st' d rel user host :
  __init__ timestamp st = (Ok self, st') →
  sftp_enabled_in (st_config st) d →
  d !! "user" = Some user →
  d !! "host" = Some host →
  formatted_relative_path self st' = (Ok rel, st') →
  Str.startswith "/" rel = false →
  ∃ p q,
    remote_path self st' = (Ok (Some p), st')
    ∧ remote_rsync_path self st'
      = (Ok (Some (py_str user +:+ "@" +:+ py_str host +:+ ":" +:+ q)), st')
    ∧ squeeze_sep q = squeeze_sep p
    ∧ (remote_rsync_path self st'
       = (Ok (Some (py_str user +:+ "@" +:+ py_str host +:+ ":" +:+ p)), st')
       ↔ ∀ a t, rel = a +:+ "//" +:+ t → Str.contains Str.sep t = true).
Proof.
  intros Hi Hen Hu Hh Hf Hrel.
  destruct (init_enabled_inv _ _ _ _ _ Hi Hen) as (dir & Hd & Hne & -> & ->).
  destruct Hen as [Hs He].
  destruct (normalized_lookup st d dir Hs Hd Hne)
    as (d' & base & Hs' & Hd' & Hb & _ & Hk & _).
  exists (Posixpath.join (Posixpath.join base (Posixpath.dirname rel))
            (Posixpath.basename rel)), (base +:+ rel).
  split; [now apply (remote_path_eq _ _ d' base rel)|].
  rewrite (remote_rsync_path_eq _ _ d' user host base rel);
    [|done|done|now rewrite Hk|now rewrite Hk|done|done].
  split; [now rewrite !append_assoc|].
  assert (Hinj : ∀ p,
    (Ok (Some (py_str user +:+ "@" +:+ py_str host +:+ ":" +:+ base +:+ rel)),
     normalized st d dir)
    = (Ok (Some (py_str user +:+ "@" +:+ py_str host +:+ ":" +:+ p)),
       normalized st d dir)
    ↔ base +:+ rel = p).
  { intros p. split; [|now intros <-]. intros [= E].
    repeat first [apply String.app_inj in E|injection E as E]. exact E. }
  rewrite !append_assoc, Hinj. clear Hinj.
  destruct (Str.contains Str.sep rel) eqn:Hc.
  - destruct (dirname_basename_relative rel Hc Hrel)
      as (k & Hsplit & Hhne & Hhs & Hhe & Hbn).
    set (h := Posixpath.dirname rel) in *. set (t := Posixpath.basename rel) in *.
    assert (Hp : Posixpath.join (Posixpath.join base h) t = (base +:+ h) +:+ "/" +:+ t).
    { rewrite (join_dir_relative base h Hb Hhs). unfold Posixpath.join.
      rewrite (contains_startswith _ Hbn), endswith_app, Hhe, orb_false_r by done.
      replace (String.eqb (base +:+ h) "") with false; [done|].
      symmetry. apply String.eqb_neq. destruct base; [done|discriminate]. }
    rewrite Hp. split.
    + rewrite Hsplit at 1. rewrite <- (append_assoc base h).
      apply squeeze_sep_run.
    + assert (Hk0 : base +:+ rel = (base +:+ h) +:+ "/" +:+ t ↔ k = 0).
      { split.
        - intros E. rewrite Hsplit in E at 1. rewrite append_assoc in E.
          do 2 apply String.app_inj in E. destruct k as [|k]; [done|].
          simpl in E. injection E as E. exfalso.
          assert (Ht : Str.contains Str.sep t = true).
          { rewrite <- E, contains_app. simpl. apply orb_true_r. }
          congruence.
        - intros ->. rewrite Hsplit at 1. now rewrite append_assoc. }
      rewrite Hk0. split.
      * intros -> a t' E. simpl in Hsplit.
        destruct (Str.contains Str.sep t') eqn:Ht'; [done|]. exfalso.
        rewrite Hsplit in E.
        change (a +:+ "//" +:+ t') with (a +:+ "/" +:+ "/" +:+ t') in E.
        rewrite <- (append_assoc a) in E.
        destruct (last_sep_unique _ _ _ _ Hbn Ht' E) as [Eh _].
        rewrite Eh, endswith_app in Hhe by done. done.
      * intros Hall. destruct k as [|k]; [done|]. exfalso.
        rewrite replicate_shift in Hsplit.
        rewrite <- (append_assoc h) in Hsplit.
        change (String Str.sep ("/" +:+ t)) with ("//" +:+ t) in Hsplit.
        rewrite (Hall _ _ Hsplit) in Hbn. done.
  - destruct (dirname_flat rel Hc) as [-> ->].
    rewrite (join_dir_empty base Hb).
    rewrite (join_dir_relative base rel Hb) by now apply contains_startswith.
    split; [done|]. split; [|done]. intros _ a t E.
    rewrite E, contains_app in Hc. simpl in Hc. now rewrite orb_true_r in Hc.
Qed.

End joins.

(** ** Calls to the outside *)

Section calls.
Context `{World}.

Lemma check_output_inv cmd st r st' :
  check_output cmd st = (r, st') → st' = push st (CheckOutput cmd).
Proof.
  unfold check_output, emit. munfold. simpl.
  destruct (argv cmd) as [args|]; [destruct (check_output_result args)|];
    now intros [= _ <-].
Qed.

Lemma run_inv cmd st r st' : run cmd st = (r, st') → st' = push st (Run cmd).
Proof.
  unfold run, emit. munfold. simpl.
  destruct (argv cmd) as [args|]; [destruct (run_result args)|];
    now intros [= _ <-].
Qed.

Lemma makedirs_inv path st r st' :
  makedirs path st = (r, st') → st' = push st (Makedirs path).
Proof.
  unfold makedirs, emit. munfold. simpl.
  destruct (makedirs_result path); now intros [= _ <-].
Qed.

Lemma save_file_inv data path st r st' :
  save_file data path st = (r, st') → st' = push st (SaveFile data path).
Proof.
  unfold save_file, emit. munfold. simpl.
  destruct (save_file_result data path); now intros [= _ <-].
Qed.

Lemma kde_set_clipboard_inv text st r st' :
  kde_set_clipboard text st = (r, st') →
  st' = push st (CheckOutput [SStr "qdbus"; SStr "org.kde.klipper"; SStr "/klipper";
                              SStr "setClipboardContents"; text]).
Proof.
  unfold kde_set_clipboard. intros Hb.
  apply bind_inv in Hb as [(e & Hm & _)|(a & st1 & Hm & Hb)];
    apply check_output_inv in Hm; [done|].
  now injection Hb as _ <-.
Qed.

Lemma xdg_open_inv path st r st' :
  xdg_open path st = (r, st') → st' = push st (CheckOutput [SStr "xdg-open"; path]).
Proof.
  unfold xdg_open. intros Hb.
  apply bind_inv in Hb as [(e & Hm & _)|(a & st1 & Hm & Hb)];
    apply check_output_inv in Hm; [done|].
  now injection Hb as _ <-.
Qed.

End calls.

Lemma reads_create_ssh_mkdir_cmd path : reads_config (create_ssh_mkdir_cmd path).
Proof. unfold create_ssh_mkdir_cmd. auto 14 with reads. Qed.

Lemma create_ssh_mkdir_cmd_head path st cmd st' :
  create_ssh_mkdir_cmd path st = (Ok cmd, st') → ∃ args, cmd = SStr "ssh" :: args.
Proof.
  unfold create_ssh_mkdir_cmd. munfold. simpl. intros Hc.
  repeat case_match; simplify_eq. eauto.
Qed.

#[export] Hint Resolve reads_formatted_relative_path reads_relative_dirname
  reads_relative_basename reads_local_path reads_local_folder
  reads_remote_directory reads_remote_path reads_remote_url
  reads_remote_rsync_path reads_create_ssh_mkdir_cmd : reads.

(** ** The run of [main] *)

Ltac bind_step H :=
  let e := fresh "e" in
  let Hm := fresh "Hm" in
  let a := fresh "a" in
  let st1 := fresh "st" in
  apply bind_inv in H as [(e & Hm & ->)|(a & st1 & Hm & H)].

Ltac pure_step Hm :=
  apply reads_config_run in Hm as [-> Hm]; [|solve [auto with reads]].

Section run_of_main.
Context `{Platform} `{World}.
Import ScreenshotPaths.

Lemma bare_normalized st d dir : bare (normalized st d dir) = normalized (bare st) d dir.
Proof. unfold normalized. now destruct (Str.endswith Str.sep dir). Qed.

Lemma normalized_trace st d dir :
  normalized st d dir
  = {| st_config := st_config (normalized (bare st) d dir); st_trace := st_trace st |}.
Proof. unfold normalized. destruct (Str.endswith Str.sep dir); [now destruct st|done]. Qed.

Ltac norm_state :=
  unfold bare, push, start in *; cbn [st_config st_trace app] in *.

Ltac quiet :=
  let ev := fresh "ev" in
  let Hev := fresh "Hev" in
  intros ev Hev; norm_state;
  repeat (apply elem_of_cons in Hev as [->|Hev]; [reflexivity|]);
  now apply elem_of_nil in Hev.

Ltac failed := split; [quiet|intros ?; discriminate].

Ltac block_failed Hmain := destruct Hmain as [-> ->]; failed.

Ltac call_step Hmain inv :=
  bind_step Hmain;
  [match goal with Hm : _ = (Raise _, _) |- _ => apply inv in Hm as -> end
  |match goal with Hm : _ = (Ok _, _) |- _ => apply inv in Hm as -> end].

Ltac read_step Hmain :=
  bind_step Hmain;
  [match goal with Hm : _ = (Raise _, _) |- _ => pure_step Hm end
  |match goal with Hm : _ = (Ok _, _) |- _ => pure_step Hm end];
  norm_state.

Lemma init_trace timestamp st r st' :
  __init__ timestamp st = (r, st') → st_trace st' = st_trace st.
Proof.
  unfold __init__. munfold. simpl. intros Hi.
  repeat case_match; simplify_eq; done.
Qed.

Lemma init_raise timestamp st e st' :
  __init__ timestamp st = (Raise e, st') → st' = st.
Proof.
  unfold __init__. munfold. simpl. intros Hi.
  repeat case_match; simplify_eq; done.
Qed.

Lemma remote_path_Some self st o st' :
  truthy (sftp_enabled self) = true →
  remote_path self st = (Ok o, st') → ∃ p, o = Some p.
Proof.
  intros He. unfold remote_path. rewrite He. cbn [negb]. intros Hb.
  repeat (apply bind_inv in Hb as [(? & ? & ?)|(? & ? & ? & Hb)]; [done|]).
  injection Hb as <- _. eauto.
Qed.

Lemma no_baseurl_get d :
  no_baseurl d → truthy (default (SBool false) (d !! "baseurl")) = false.
Proof. unfold no_baseurl. now destruct (d !! "baseurl"). Qed.

Ltac ok_step Hmain :=
  let e := fresh "e" in
  let Hm := fresh "Hm" in
  let a := fresh "a" in
  let st1 := fresh "st" in
  apply bind_inv in Hmain as [(e & Hm & [=])|(a & st1 & Hm & Hmain)].

Ltac ok_call Hmain inv :=
  ok_step Hmain;
  match goal with Hm : _ = (Ok _, _) |- _ => apply inv in Hm as -> end.

Ltac ok_read Hmain :=
  ok_step Hmain;
  match goal with Hm : _ = (Ok _, _) |- _ => pure_step Hm end;
  norm_state.

Ltac same_reads :=
  repeat match goal with
  | H1 : ?m = (Ok ?x, ?s), H2 : ?m = (Ok ?y, ?s) |- _ =>
      assert (y = x) by congruence; subst y; clear H2
  end.

Ltac only_event :=
  let ev := fresh "ev" in
  let Hev := fresh "Hev" in
  let Hk := fresh "Hk" in
  intros ev Hev Hk; norm_state;
  repeat (apply elem_of_cons in Hev as [->|Hev];
          [first [reflexivity|simpl in Hk; discriminate Hk]|]);
  now apply elem_of_nil in Hev.

Lemma main_without_baseurl timestamp config d r st' :
  sftp_enabled_in config d →
  no_baseurl d →
  main timestamp (start config) = (r, st') →
  (∀ e, e ∈ st_trace st' → is_xdg_open e = false)
  ∧ (r = Ok tt → notify_on config = true →
     ∃ self st1 base p,
       __init__ timestamp (start config) = (Ok self, st1)
       ∧ relative_basename self st1 = (Ok base, st1)
       ∧ remote_path self st1 = (Ok (Some p), st1)
       ∧ Run [SStr "notify-send"; SStr base; SStr p] ∈ st_trace st'
       ∧ (∀ e, e ∈ st_trace st' → is_notify e = true →
            e = Run [SStr "notify-send"; SStr base; SStr p])).
Proof.
  intros Hen Hnb Hmain. unfold main in Hmain.
  call_step Hmain check_output_inv; [failed|].
  bind_step Hmain.
  { apply init_raise in Hm as ->. failed. }
  destruct (init_enabled_inv _ _ _ _ d Hm) as (dir & Hd & Hne & Hself & Hst); [done|].
  pose proof (init_enabled timestamp (start config) d dir Hen Hd Hne) as Hinit.
  destruct Hen as [Hs He].
  destruct (normalized_lookup (start config) d dir Hs Hd Hne)
    as (d' & base & Hs' & Hd' & _ & _ & Hk & Hc & _).
  rewrite normalized_trace in Hst, Hinit. norm_state.
  set (c1 := st_config (normalized _ d dir)) in *.
  subst st. clear Hm.
  assert (He' : truthy (sftp_enabled a0) = true) by now rewrite Hself.
  read_step Hmain; [failed|].
  call_step Hmain makedirs_inv; [failed|].
  read_step Hmain; [failed|].
  call_step Hmain save_file_inv; [failed|].
  read_step Hmain; [failed|].
  read_step Hmain; [failed|].
  read_step Hmain; [failed|].
  read_step Hmain; [failed|].
  match goal with Hg : get_config _ = (Ok ?c, _) |- _ => injection Hg as <- end.
  read_step Hmain; [failed|].
  match goal with
  | Hg : get_method _ "enabled" _ _ = (Ok ?c, _) |- _ =>
      rewrite Hs' in Hg; injection Hg as <-
  end.
  rewrite (Hk "enabled"), He in Hmain by done.
  apply bind_split in Hmain as (rb & stb & Hblock & Hmain).
  read_step Hblock; [block_failed Hmain|].
  read_step Hblock; [block_failed Hmain|].
  match goal with
  | Hg : create_ssh_mkdir_cmd _ _ = (Ok ?c, _) |- _ =>
      destruct (create_ssh_mkdir_cmd_head _ _ _ _ Hg) as [args ->]
  end.
  call_step Hblock check_output_inv; [block_failed Hmain|].
  read_step Hblock; [block_failed Hmain|].
  read_step Hblock; [block_failed Hmain|].
  call_step Hblock check_output_inv; [block_failed Hmain|].
  read_step Hblock; [block_failed Hmain|].
  read_step Hblock; [block_failed Hmain|].
  read_step Hblock; [block_failed Hmain|].
  match goal with
  | Hg : getitem c1 "sftp" _ = (Ok ?c, _) |- _ =>
      unfold getitem in Hg; rewrite Hs' in Hg; injection Hg as <-
  end.
  match goal with
  | Hg : get_method _ "baseurl" _ _ = (Ok ?c, _) |- _ =>
      injection Hg as <-
  end.
  rewrite (Hk "baseurl"), (no_baseurl_get d Hnb), andb_false_r in Hblock by done.
  read_step Hblock; [block_failed Hmain|].
  read_step Hblock; [block_failed Hmain|].
  injection Hblock as <- <-. cbn beta iota in Hmain.
  rewrite !Hc in Hmain by done. fold (notify_on config) (open_on config) in Hmain.
  cbn [truthy andb] in Hmain.
  destruct (notify_on config) eqn:Hnotify.
  - unfold kde_notify in Hmain. call_step Hmain run_inv; [failed|].
    injection Hmain as <- <-. split; [quiet|]. intros _ _.
    match goal with
    | Hg : remote_path _ _ = (Ok ?o, _) |- _ =>
        destruct (remote_path_Some _ _ _ _ He' Hg) as [p ->]
    end.
    subst a0. eexists _, _, _, p. split; [exact Hinit|].
    split; [eassumption|]. split; [eassumption|]. split.
    + norm_state. repeat (apply elem_of_cons; first [left; reflexivity|right]).
    + only_event.
  - bind_step Hmain; [discriminate|]. injection Hm11 as <- <-.
    injection Hmain as <- <-. split; [quiet|]. intros _ Hf. discriminate.
Qed.

Lemma init_disabled_eq timestamp st :
  sftp_disabled_in (st_config st) →
  __init__ timestamp st
  = (Ok {| dt := timestamp; sftp_enabled := enabled_flag (st_config st) |}, st)
  ∧ truthy (enabled_flag (st_config st)) = false.
Proof.
  intros [Hs|(d & Hs & He)]; unfold __init__, enabled_flag; munfold; simpl;
    rewrite Hs; simpl; [done|]. now rewrite He.
Qed.

Lemma main_without_publishing timestamp config st' :
  sftp_disabled_in config →
  main timestamp (start config) = (Ok tt, st') →
  ∃ self path base,
    __init__ timestamp (start config) = (Ok self, start config)
    ∧ local_path self (start config) = (Ok path, start config)
    ∧ relative_basename self (start config) = (Ok base, start config)
    ∧ (∀ e, e ∈ st_trace st' → is_notify e = true →
         e = Run [SStr "notify-send"; SStr base; SStr path])
    ∧ (∀ e, e ∈ st_trace st' → is_xdg_open e = true →
         e = CheckOutput [SStr "xdg-open"; SStr path])
    ∧ (notify_on config = true →
         Run [SStr "notify-send"; SStr base; SStr path] ∈ st_trace st')
    ∧ (open_on config = true → path ≠ "" →
         CheckOutput [SStr "xdg-open"; SStr path] ∈ st_trace st').
Proof.
  intros Hdis Hmain. unfold main in Hmain.
  destruct (init_disabled_eq timestamp (start config) Hdis) as [Hinit He].
  ok_call Hmain check_output_inv.
  ok_step Hmain.
  match goal with
  | Hg : __init__ _ ?s = _ |- _ =>
      destruct (init_disabled_eq timestamp s Hdis) as [Hi _];
      rewrite Hi in Hg; injection Hg as <- <-; clear Hi
  end.
  norm_state. set (self := {| dt := timestamp; sftp_enabled := _ |}) in *.
  ok_read Hmain. ok_call Hmain makedirs_inv.
  ok_read Hmain. ok_call Hmain save_file_inv.
  ok_read Hmain. ok_read Hmain. ok_read Hmain. ok_read Hmain.
  match goal with Hg : get_config _ = (Ok ?c, _) |- _ => injection Hg as <- end.
  ok_read Hmain. same_reads.
  match goal with
  | Hg : get_method _ "enabled" _ _ = (Ok ?c, _) |- _ =>
      assert (c = enabled_flag config) as ->
        by (unfold enabled_flag; unfold get_method in Hg;
            destruct (default (VDict ∅) (config !! "sftp")); [done|];
            now injection Hg as <-);
      clear Hg
  end.
  rewrite He in Hmain. ok_read Hmain.
  match goal with Hg : mret _ _ = (Ok ?c, _) |- _ => injection Hg as <- end.
  cbn beta iota in Hmain.
  fold (notify_on config) (open_on config) in Hmain.
  match goal with
  | Hp : local_path _ _ = (Ok ?p, _), Hb : relative_basename _ _ = (Ok ?b, _) |- _ =>
      exists self, p, b; split; [exact Hinit|]; split; [exact Hp|];
      split; [exact Hb|]
  end.
  destruct (notify_on config) eqn:Hnotify;
    [unfold kde_notify in Hmain; ok_call Hmain run_inv|ok_read Hmain];
    (destruct (truthy _ && open_on config) eqn:Hopen;
     [apply xdg_open_inv in Hmain as ->|injection Hmain as <-]);
    norm_state.
  all: split; [only_event|split; [only_event|]].
  all: split; [intros Hn|intros Ho Hp]; try discriminate.
  all: try (exfalso; rewrite Ho, andb_true_r in Hopen; simpl in Hopen;
            apply negb_false_iff, String.eqb_eq in Hopen; done).
  all: repeat (apply elem_of_cons; first [left; reflexivity|right]).
Qed.

(** C7: with remote publishing enabled and no base URL, [main] never calls
    [xdg-open], whatever the [open] flag, and the notification it sends has
    the remote path as body; with remote publishing disabled, the
    notification body and the target of [xdg-open] are the local path. *)
Theorem notification_and_open_targets timestamp config r st' :
  main timestamp (start config) = (r, st') →
  (∀ d, sftp_enabled_in config d → no_baseurl d →
     (∀ e, e ∈ st_trace st' → is_xdg_open e = false)
     ∧ (r = Ok tt → notify_on config = true →
        ∃ self st1 base p,
          __init__ timestamp (start config) = (Ok self, st1)
          ∧ relative_basename self st1 = (Ok base, st1)
          ∧ remote_path self st1 = (Ok (Some p), st1)
          ∧ Run [SStr "notify-send"; SStr base; SStr p] ∈ st_trace st'
          ∧ (∀ e, e ∈ st_trace st' → is_notify e = true →
               e = Run [SStr "notify-send"; SStr base; SStr p])))
  ∧ (sftp_disabled_in config → r = Ok tt →
     ∃ self path base,
       __init__ timestamp (start config) = (Ok self, start config)
       ∧ local_path self (start config) = (Ok path, start config)
       ∧ relative_basename self (start config) = (Ok base, start config)
       ∧ (∀ e, e ∈ st_trace st' → is_notify e = true →
            e = Run [SStr "notify-send"; SStr base; SStr path])
       ∧ (∀ e, e ∈ st_trace st' → is_xdg_open e = true →
            e = CheckOutput [SStr "xdg-open"; SStr path])
       ∧ (notify_on config = true →
            Run [SStr "notify-send"; SStr base; SStr path] ∈ st_trace st')
       ∧ (open_on config = true → path ≠ "" →
            CheckOutput [SStr "xdg-open"; SStr path] ∈ st_trace st')).
Proof.
  intros Hmain. split.
  - intros d Hen Hnb. now apply (main_without_baseurl timestamp config d r st').
  - intros Hdis ->. now apply main_without_publishing.
Qed.

End run_of_main.

(** ** The transfer command *)

(** C6: the transfer command is [rsync] with the options [-Pr], [--no-R],
    [--no-implied-dirs], [-p] and [--chmod=F775], in this order, followed by
    the local path and then the remote path; neither [-R] nor [--relative]
    is among the options. *)
Theorem rsync_command_shape local_path remote_path :
  create_rsync_cmd local_path remote_path
  = [SStr "rsync"]
    ++ map SStr ["-Pr"; "--no-R"; "--no-implied-dirs"; "-p"; "--chmod=F775"]
    ++ [local_path; remote_path]
  ∧ length (create_rsync_cmd local_path remote_path) = 8
  ∧ (SStr "-R" ∉ take 6 (create_rsync_cmd local_path remote_path))
  ∧ (SStr "--relative" ∉ take 6 (create_rsync_cmd local_path remote_path)).
Proof.
  split; [reflexivity|]. split; [reflexivity|].
  split; intros Hin; simpl in Hin;
    repeat (apply elem_of_cons in Hin as [Hin|Hin]; [discriminate Hin|]);
    now apply elem_of_nil in Hin.
Qed.

(** ** Concrete runs *)

Example dirname_nested : Posixpath.dirname "2024/03/05/142201.png" = "2024/03/05".
Proof. reflexivity. Qed.

Example dirname_flat_name : Posixpath.dirname "shot.png" = "".
Proof. reflexivity. Qed.

Example dirname_root : Posixpath.dirname "//shot.png" = "//".
Proof. reflexivity. Qed.

Example dirname_doubled : Posixpath.dirname "a//b.png" = "a".
Proof. reflexivity. Qed.

Example basename_nested : Posixpath.basename "2024/03/05/142201.png" = "142201.png".
Proof. reflexivity. Qed.

Example join_absolute : Posixpath.join "/srv/shots/" "/etc" = "/etc".
Proof. reflexivity. Qed.

Example join_plain : Posixpath.join "/tmp/shots" "a.png" = "/tmp/shots/a.png".
Proof. reflexivity. Qed.

Example py_str_negative : py_str (SInt (-22)) = "-22".
Proof. reflexivity. Qed.

Example expanduser_home : expanduser (H := table_platform) "~/shots" = "/home/user/shots".
Proof. reflexivity. Qed.

Example expanduser_unknown_user : expanduser (H := table_platform) "~bob/x" = "~bob/x".
Proof. reflexivity. Qed.

Example strftime_names :
  Strftime.table (stamp 0) "%a %A %b %B %j %w %I %p %y %f %%"
  = Some "Tue Tuesday Mar March 065 2 02 PM 24 000000 %".
Proof. reflexivity. Qed.

Example strftime_unknown_directive : Strftime.table (stamp 0) "%Q" = None.
Proof. reflexivity. Qed.

(** The whole run with publishing, a base URL and both flags set. *)
Example main_publishing_trace :
  let out := main (H := table_platform) (H0 := quiet_world) (stamp 0)
               (start (publishing "%Y/%m/%d/%H%M%S.png" "/srv/shots"
                         (SStr "https://img.example.com/"))) in
  fst out = Ok tt
  ∧ st_trace (snd out)
    = [CheckOutput [SStr "flameshot"; SStr "gui"; SStr "-r"];
       Makedirs "/tmp/shots/2024/03/05";
       SaveFile "" "/tmp/shots/2024/03/05/142201.png";
       CheckOutput [SStr "ssh"; SStr "-i"; SStr "/home/user/.ssh/id_ed25519";
                    SStr "-p"; SStr "22"; SStr "user@host";
                    SStr "mkdir -p /srv/shots/2024/03/05"];
       CheckOutput [SStr "rsync"; SStr "-Pr"; SStr "--no-R";
                    SStr "--no-implied-dirs"; SStr "-p"; SStr "--chmod=F775";
                    SStr "/tmp/shots/2024/03/05/142201.png";
                    SStr "user@host:/srv/shots/2024/03/05/142201.png"];
       CheckOutput [SStr "qdbus"; SStr "org.kde.klipper"; SStr "/klipper";
                    SStr "setClipboardContents";
                    SStr "https://img.example.com/2024/03/05/142201.png"];
       Run [SStr "notify-send"; SStr "142201.png";
            SStr "https://img.example.com/2024/03/05/142201.png"];
       CheckOutput [SStr "xdg-open";
                    SStr "https://img.example.com/2024/03/05/142201.png"]].
Proof. vm_compute. split; reflexivity. Qed.

(** ** Instances of the theorems *)

(** C10 as stated fails: with the template ["%Y//%m.png"] the transfer
    address keeps both separators, ["user@host:/srv/shots/2024//03.png"],
    while [remote_path] is ["/srv/shots/2024/03.png"]. *)
Lemma transfer_address_keeps_doubled_separator :
  ¬ transfer_address_extends_remote_path (H := table_platform) (stamp 0)
      (start (publishing "%Y//%m.png" "/srv/shots/" SNone)).
Proof.
  intros Hclaim.
  set (config := publishing "%Y//%m.png" "/srv/shots/" SNone) in *.
  destruct (Hclaim {| ScreenshotPaths.dt := stamp 0;
                      ScreenshotPaths.sftp_enabled := SBool true |}
                   (start config) (example_sftp "/srv/shots/" SNone)
                   "2024//03.png" (SStr "user") (SStr "host"))
    as (p & Hp & Hr);
    [vm_compute; reflexivity|split; vm_compute; reflexivity
    |vm_compute; reflexivity..|].
  apply (f_equal fst) in Hp, Hr. vm_compute in Hp. injection Hp as <-.
  vm_compute in Hr. discriminate Hr.
Qed.

Lemma remote_properties_absent_when_disabled_witness :
  ∃ self,
    ScreenshotPaths.__init__ (stamp 0) (start local_only)
    = (Ok self, start local_only)
    ∧ ScreenshotPaths.remote_directory self (start local_only)
      = (Ok None, start local_only)
    ∧ ScreenshotPaths.remote_path self (start local_only)
      = (Ok None, start local_only)
    ∧ ScreenshotPaths.remote_url self (start local_only)
      = (Ok None, start local_only)
    ∧ ScreenshotPaths.remote_rsync_path self (start local_only)
      = (Ok None, start local_only).
Proof.
  apply (@remote_properties_absent_when_disabled table_platform (stamp 0)
           (start local_only)).
  left. vm_compute. reflexivity.
Defined.

Lemma remote_url_absent_remote_path_defined_witness :
  ScreenshotPaths.remote_url published_paths
    (published "%Y/%m/%d/%H%M%S.png" (SStr ""))
  = (Ok None, published "%Y/%m/%d/%H%M%S.png" (SStr ""))
  ∧ ∃ p, ScreenshotPaths.remote_path published_paths
           (published "%Y/%m/%d/%H%M%S.png" (SStr ""))
         = (Ok (Some p), published "%Y/%m/%d/%H%M%S.png" (SStr "")).
Proof.
  apply (@remote_url_absent_remote_path_defined table_platform (stamp 0)
           (start (publishing "%Y/%m/%d/%H%M%S.png" "/srv/shots" (SStr "")))
           published_paths (published "%Y/%m/%d/%H%M%S.png" (SStr ""))
           (example_sftp "/srv/shots" (SStr "")) "2024/03/05/142201.png").
  - vm_compute. reflexivity.
  - split; vm_compute; reflexivity.
  - vm_compute. reflexivity.
  - vm_compute. reflexivity.
Defined.

Lemma normalization_happens_once_witness :
  ∃ self,
    ScreenshotPaths.__init__ (stamp 0)
      (start (publishing "%Y/%m/%d/%H%M%S.png" "/srv/shots" SNone))
    = (Ok self, published "%Y/%m/%d/%H%M%S.png" SNone)
    ∧ (∀ ps, ScreenshotPaths.reads ps self (published "%Y/%m/%d/%H%M%S.png" SNone)
             = published "%Y/%m/%d/%H%M%S.png" SNone)
    ∧ (∀ timestamp',
         ∃ self', ScreenshotPaths.__init__ timestamp'
                    (published "%Y/%m/%d/%H%M%S.png" SNone)
                  = (Ok self', published "%Y/%m/%d/%H%M%S.png" SNone)).
Proof.
  apply (@normalization_happens_once table_platform (stamp 0)
           (start (publishing "%Y/%m/%d/%H%M%S.png" "/srv/shots" SNone))
           (example_sftp "/srv/shots" SNone)).
  - split; vm_compute; reflexivity.
  - vm_compute. reflexivity.
Defined.

Lemma local_path_example_witness :
  (paths ← ScreenshotPaths.__init__ (stamp 0); ScreenshotPaths.local_path paths)
    (start local_only)
  = (Ok "/tmp/shots/2024/03/05/142201.png", start local_only).
Proof. apply (@local_path_example table_platform 0 []). lia. Defined.

Lemma remote_example_witness :
  ∃ self st',
    ScreenshotPaths.__init__ (stamp 0)
      (start (publishing "%Y/%m/%d/%H%M%S.png" "/srv/shots"
                (SStr "https://img.example.com/")))
    = (Ok self, st')
    ∧ ScreenshotPaths.remote_url self st'
      = (Ok (Some "https://img.example.com/2024/03/05/142201.png"), st')
    ∧ ScreenshotPaths.remote_rsync_path self st'
      = (Ok (Some "user@host:/srv/shots/2024/03/05/142201.png"), st').
Proof.
  apply (@remote_example table_platform 0
           (start (publishing "%Y/%m/%d/%H%M%S.png" "/srv/shots"
                     (SStr "https://img.example.com/")))
           (example_sftp "/srv/shots" (SStr "https://img.example.com/"))).
  - lia.
  - split; vm_compute; reflexivity.
  - vm_compute. reflexivity.
  - vm_compute. reflexivity.
  - vm_compute. reflexivity.
  - vm_compute. reflexivity.
  - vm_compute. reflexivity.
Defined.

Lemma remote_paths_of_flat_template_witness :
  ∃ d' base,
    st_config (published "%Y%m%d-%H%M%S.png" SNone) !! "sftp" = Some (VDict d')
    ∧ d' !! "directory" = Some (SStr base)
    ∧ Str.endswith Str.sep base = true
    ∧ ScreenshotPaths.remote_directory published_paths
        (published "%Y%m%d-%H%M%S.png" SNone)
      = (Ok (Some base), published "%Y%m%d-%H%M%S.png" SNone)
    ∧ ScreenshotPaths.remote_path published_paths
        (published "%Y%m%d-%H%M%S.png" SNone)
      = (Ok (Some (Posixpath.join base (Posixpath.basename "20240305-142201.png"))),
         published "%Y%m%d-%H%M%S.png" SNone)
    ∧ Posixpath.join base (Posixpath.basename "20240305-142201.png")
      = base +:+ "20240305-142201.png".
Proof.
  apply (@remote_paths_of_flat_template table_platform (stamp 0)
           (start (publishing "%Y%m%d-%H%M%S.png" "/srv/shots" SNone))
           published_paths (published "%Y%m%d-%H%M%S.png" SNone)
           (example_sftp "/srv/shots" SNone) "20240305-142201.png").
  - vm_compute. reflexivity.
  - split; vm_compute; reflexivity.
  - vm_compute. reflexivity.
  - reflexivity.
Defined.

Lemma init_needs_nonempty_directory_witness :
  ("" = "" ↔ ScreenshotPaths.__init__ (stamp 0)
               (start (publishing "%Y/%m/%d/%H%M%S.png" "" SNone))
             = (Raise IndexError, start (publishing "%Y/%m/%d/%H%M%S.png" "" SNone)))
  ∧ ("" ≠ "" ↔ ∃ self st', ScreenshotPaths.__init__ (stamp 0)
                             (start (publishing "%Y/%m/%d/%H%M%S.png" "" SNone))
                           = (Ok self, st')).
Proof.
  apply (@init_needs_nonempty_directory (stamp 0)
           (start (publishing "%Y/%m/%d/%H%M%S.png" "" SNone))
           (example_sftp "" SNone) "").
  - split; vm_compute; reflexivity.
  - vm_compute. reflexivity.
Defined.

Lemma transfer_address_and_remote_path_witness :
  ∃ p q,
    ScreenshotPaths.remote_path published_paths (published "a//b/%H%M%S.png" SNone)
    = (Ok (Some p), published "a//b/%H%M%S.png" SNone)
    ∧ ScreenshotPaths.remote_rsync_path published_paths
        (published "a//b/%H%M%S.png" SNone)
      = (Ok (Some (py_str (SStr "user") +:+ "@" +:+ py_str (SStr "host")
                   +:+ ":" +:+ q)),
         published "a//b/%H%M%S.png" SNone)
    ∧ squeeze_sep q = squeeze_sep p
    ∧ (ScreenshotPaths.remote_rsync_path published_paths
         (published "a//b/%H%M%S.png" SNone)
       = (Ok (Some (py_str (SStr "user") +:+ "@" +:+ py_str (SStr "host")
                    +:+ ":" +:+ p)),
          published "a//b/%H%M%S.png" SNone)
       ↔ ∀ a t, "a//b/142201.png" = a +:+ "//" +:+ t →
                Str.contains Str.sep t = true).
Proof.
  apply (@transfer_address_and_remote_path table_platform (stamp 0)
           (start (publishing "a//b/%H%M%S.png" "/srv/shots" SNone))
           published_paths (published "a//b/%H%M%S.png" SNone)
           (example_sftp "/srv/shots" SNone) "a//b/142201.png"
           (SStr "user") (SStr "host")).
  - vm_compute. reflexivity.
  - split; vm_compute; reflexivity.
  - vm_compute. reflexivity.
  - vm_compute. reflexivity.
  - vm_compute. reflexivity.
  - reflexivity.
Defined.

(** A doubled separator inside the directory part is kept on both sides;
    one right before the file name, or at the end, only by the transfer
    address. *)
Example doubled_separator_inside :
  ScreenshotPaths.remote_path published_paths (published "a//b/%H%M%S.png" SNone)
  = (Ok (Some "/srv/shots/a//b/142201.png"), published "a//b/%H%M%S.png" SNone)
  ∧ ScreenshotPaths.remote_rsync_path published_paths
      (published "a//b/%H%M%S.png" SNone)
    = (Ok (Some "user@host:/srv/shots/a//b/142201.png"),
       published "a//b/%H%M%S.png" SNone).
Proof. split; vm_compute; reflexivity. Qed.

Example doubled_separator_last :
  ScreenshotPaths.remote_path published_paths (published "a//" SNone)
  = (Ok (Some "/srv/shots/a/"), published "a//" SNone)
  ∧ ScreenshotPaths.remote_rsync_path published_paths (published "a//" SNone)
    = (Ok (Some "user@host:/srv/shots/a//"), published "a//" SNone).
Proof. split; vm_compute; reflexivity. Qed.

Lemma notification_and_open_targets_witness :
  ((∀ e, e ∈ st_trace (snd (reference_run
                              (publishing "%Y/%m/%d/%H%M%S.png" "/srv/shots" SNone))) →
         is_xdg_open e = false)
   ∧ Run [SStr "notify-send"; SStr "142201.png";
          SStr "/srv/shots/2024/03/05/142201.png"]
     ∈ st_trace (snd (reference_run
                        (publishing "%Y/%m/%d/%H%M%S.png" "/srv/shots" SNone))))
  ∧ (Run [SStr "notify-send"; SStr "142201.png";
          SStr "/tmp/shots/2024/03/05/142201.png"]
     ∈ st_trace (snd (reference_run local_notifying))
     ∧ CheckOutput [SStr "xdg-open"; SStr "/tmp/shots/2024/03/05/142201.png"]
       ∈ st_trace (snd (reference_run local_notifying))).
Proof.
  split.
  - destruct (@notification_and_open_targets table_platform quiet_world (stamp 0)
                (publishing "%Y/%m/%d/%H%M%S.png" "/srv/shots" SNone)
                (Ok tt)
                (snd (reference_run
                        (publishing "%Y/%m/%d/%H%M%S.png" "/srv/shots" SNone))))
      as [Hpublishing _]; [vm_compute; reflexivity|].
    destruct (Hpublishing (example_sftp "/srv/shots" SNone))
      as [Hquiet Hnotify]; [split; vm_compute; reflexivity|vm_compute; reflexivity|].
    split; [exact Hquiet|].
    destruct Hnotify as (self & st1 & base & p & Hi & Hb & Hp & Hin & _);
      [reflexivity|vm_compute; reflexivity|].
    vm_compute in Hi. injection Hi as <- <-.
    apply (f_equal fst) in Hb, Hp. vm_compute in Hb, Hp.
    injection Hb as <-. injection Hp as <-. exact Hin.
  - destruct (@notification_and_open_targets table_platform quiet_world (stamp 0)
                local_notifying (Ok tt) (snd (reference_run local_notifying)))
      as [_ Hlocal]; [vm_compute; reflexivity|].
    destruct Hlocal as (self & path & base & Hi & Hp & Hb & _ & _ & Hn & Ho);
      [left; vm_compute; reflexivity|reflexivity|].
    vm_compute in Hi. injection Hi as <-.
    apply (f_equal fst) in Hb, Hp. vm_compute in Hb, Hp.
    injection Hb as <-. injection Hp as <-.
    split; [apply Hn; vm_compute; reflexivity|].
    apply Ho; [vm_compute; reflexivity|discriminate].
Defined.

(** ** More on the constructor *)

Section constructor_outcomes.
Import ScreenshotPaths.

Lemma init_falsy_inv timestamp st self st' :
  __init__ timestamp st = (Ok self, st') →
  truthy (sftp_enabled self) = false →
  sftp_disabled_in (st_config st) ∧ st' = st
  ∧ self = {| dt := timestamp; sftp_enabled := enabled_flag (st_config st) |}.
Proof.
  intros Hi Hf.
  assert (Hdis : sftp_disabled_in (st_config st)).
  { destruct (st_config st !! "sftp") as [[x|d]|] eqn:Hs.
    - unfold __init__ in Hi; munfold in Hi; simpl in Hi. now rewrite Hs in Hi.
    - destruct (truthy (default (SBool false) (d !! "enabled"))) eqn:He.
      + destruct (init_enabled_inv _ _ _ _ d Hi) as (dir & _ & _ & -> & _); [done|].
        simpl in Hf. congruence.
      + right. now exists d.
    - now left. }
  destruct (init_disabled_eq timestamp st Hdis) as [Heq _].
  rewrite Heq in Hi. now injection Hi as <- <-.
Qed.

Lemma enabled_flag_enabled config d :
  config !! "sftp" = Some (VDict d) →
  enabled_flag config = default (SBool false) (d !! "enabled").
Proof. intros Hs. unfold enabled_flag. now rewrite Hs. Qed.

(** X1: constructing a second instance over the configuration that a first
    construction left behind returns, with the same enabled flag, and
    changes nothing. *)
Theorem init_idempotent timestamp st self st' timestamp' :
  __init__ timestamp st = (Ok self, st') →
  __init__ timestamp' st'
  = (Ok {| dt := timestamp'; sftp_enabled := sftp_enabled self |}, st').
Proof.
  intros Hi. destruct (truthy (sftp_enabled self)) eqn:He.
  - destruct (init_inv _ _ _ _ Hi He) as (d & dir & Hen & Hd & Hne & _ & ->).
    destruct (init_enabled_inv _ _ _ _ d Hi Hen) as (_ & _ & _ & -> & _).
    destruct Hen as [Hs Hen].
    destruct (normalized_lookup st d dir Hs Hd Hne)
      as (d' & base & Hs' & Hd' & Hb & _ & Hk & _).
    assert (Hne' : base ≠ "") by (intros ->; done).
    rewrite (init_enabled timestamp' _ d' base); [|split; [done|]|done..].
    + simpl. rewrite Hk by done. f_equal.
      unfold normalized at 1. now rewrite Hb.
    + now rewrite Hk.
  - destruct (init_falsy_inv _ _ _ _ Hi He) as (Hdis & -> & ->).
    now destruct (init_disabled_eq timestamp' st Hdis) as [-> _].
Qed.

(** X2: a constructor that raises has not touched the state.  An [sftp]
    member that is null, a boolean, an integer or a string raises
    [AttributeError]; with publishing enabled, a missing remote directory
    raises [KeyError], and one that is null, a boolean or an integer raises
    [TypeError]. *)
Theorem init_failure timestamp st :
  (∀ e st', __init__ timestamp st = (Raise e, st') → st' = st)
  ∧ (∀ x, st_config st !! "sftp" = Some (VScalar x) →
       __init__ timestamp st = (Raise AttributeError, st))
  ∧ (∀ d, sftp_enabled_in (st_config st) d →
       d !! "directory" = None →
       __init__ timestamp st = (Raise KeyError, st))
  ∧ (∀ d x, sftp_enabled_in (st_config st) d →
       d !! "directory" = Some x →
       x = SNone ∨ (∃ b, x = SBool b) ∨ (∃ n, x = SInt n) →
       __init__ timestamp st = (Raise TypeError, st)).
Proof.
  split; [intros e st' Hi; now apply init_raise in Hi|].
  split; [|split].
  - intros x Hs. unfold __init__. munfold. simpl. now rewrite Hs.
  - intros d [Hs He] Hd. unfold __init__. munfold. simpl. rewrite Hs. simpl.
    now rewrite He, Hd.
  - intros d x [Hs He] Hd Hx. unfold __init__. munfold. simpl. rewrite Hs.
    simpl. rewrite He, Hd. now destruct Hx as [->|[[b ->]|[n ->]]].
Qed.

(** What the constructor does to the [sftp] object, whatever it returns:
    every member but [directory] is kept, and a [directory] that is a
    string is kept or, with publishing enabled, gets one separator
    appended. *)
Lemma init_sftp_object timestamp st r st' d :
  __init__ timestamp st = (r, st') →
  st_config st !! "sftp" = Some (VDict d) →
  ∃ d', st_config st' !! "sftp" = Some (VDict d')
        ∧ (∀ k, k ≠ "directory" → d' !! k = d !! k)
        ∧ (∀ dir, d !! "directory" = Some (SStr dir) →
             d' !! "directory"
             = Some (SStr (match r with
                           | Ok self =>
                               if truthy (sftp_enabled self)
                                  && negb (Str.endswith Str.sep dir)
                               then dir +:+ "/" else dir
                           | Raise _ => dir
                           end))).
Proof.
  intros Hi Hs. destruct r as [self|e].
  - destruct (truthy (sftp_enabled self)) eqn:He.
    + destruct (init_inv _ _ _ _ Hi He) as (d0 & dir0 & Hen & Hd & Hne & _ & ->).
      destruct Hen as [Hs0 Hen]. rewrite Hs in Hs0. injection Hs0 as <-.
      unfold normalized, with_remote_directory.
      destruct (Str.endswith Str.sep dir0) eqn:Hend.
      * exists d. split; [done|]. split; [done|]. intros dir Hdir.
        rewrite Hd in Hdir. injection Hdir as <-. now rewrite Hend.
      * exists (<["directory" := SStr (dir0 +:+ "/")]> d). simpl.
        split; [now rewrite lookup_insert_eq|].
        split; [intros k Hk; now rewrite lookup_insert_ne|].
        intros dir Hdir. rewrite Hd in Hdir. injection Hdir as <-.
        now rewrite Hend, lookup_insert_eq.
    + destruct (init_falsy_inv _ _ _ _ Hi He) as (_ & -> & _).
      exists d. split; [done|]. split; [done|]. now intros dir Hdir.
  - apply init_raise in Hi as ->. exists d. split; [done|]. split; [done|].
    now intros dir Hdir.
Qed.

(** X3: a constructor that returns has kept the trace and every member of
    the configuration except [sftp]; with publishing disabled it has kept
    the whole state; and an [sftp] object has kept every member except
    [directory], where with publishing enabled a string is replaced by
    itself if it ended in a separator and by itself plus one separator
    otherwise. *)
Theorem init_changes_only_remote_directory timestamp st self st' :
  __init__ timestamp st = (Ok self, st') →
  st_trace st' = st_trace st
  ∧ self = {| dt := timestamp; sftp_enabled := enabled_flag (st_config st) |}
  ∧ (∀ k, k ≠ "sftp" → st_config st' !! k = st_config st !! k)
  ∧ (truthy (sftp_enabled self) = false → st' = st)
  ∧ (∀ d, st_config st !! "sftp" = Some (VDict d) →
       ∃ d', st_config st' !! "sftp" = Some (VDict d')
             ∧ (∀ k, k ≠ "directory" → d' !! k = d !! k)
             ∧ (∀ dir, truthy (sftp_enabled self) = true →
                  d !! "directory" = Some (SStr dir) →
                  d' !! "directory"
                  = Some (SStr (if Str.endswith Str.sep dir then dir
                                else dir +:+ "/")))).
Proof.
  intros Hi. split; [now apply init_trace in Hi|].
  assert (Hobj : ∀ d, st_config st !! "sftp" = Some (VDict d) →
            ∃ d', st_config st' !! "sftp" = Some (VDict d')
                  ∧ (∀ k, k ≠ "directory" → d' !! k = d !! k)
                  ∧ (∀ dir, truthy (sftp_enabled self) = true →
                       d !! "directory" = Some (SStr dir) →
                       d' !! "directory"
                       = Some (SStr (if Str.endswith Str.sep dir then dir
                                     else dir +:+ "/")))).
  { intros d Hs. destruct (init_sftp_object _ _ _ _ d Hi Hs) as (d' & Hs' & Hk & Hd).
    exists d'. split; [done|]. split; [done|]. intros dir He Hdir.
    rewrite (Hd dir Hdir), He. now destruct (Str.endswith Str.sep dir). }
  destruct (truthy (sftp_enabled self)) eqn:He.
  - destruct (init_inv _ _ _ _ Hi He) as (d & dir & Hen & Hd & Hne & _ & ->).
    destruct (init_enabled_inv _ _ _ _ d Hi Hen) as (_ & _ & _ & -> & _).
    destruct Hen as [Hs Hen].
    split; [now rewrite (enabled_flag_enabled _ d Hs)|].
    split; [|split; [done|exact Hobj]].
    intros k Hk. unfold normalized, with_remote_directory.
    destruct (Str.endswith Str.sep dir); [done|]. simpl.
    now rewrite lookup_insert_ne.
  - destruct (init_falsy_inv _ _ _ _ Hi He) as (_ & -> & ->). done.
Qed.

End constructor_outcomes.

(** ** Runs stop at the first exception and keep the configuration *)

Section discipline.
Context `{Platform} `{World}.
Import ScreenshotPaths.

Lemma orderly_bind {A B} (m : M A) (f : A → M B) :
  orderly m → (∀ a, orderly (f a)) → orderly (m ≫= f).
Proof.
  intros Hm Hf st r st' Hall Hr.
  apply bind_inv in Hr as [(e & Hr & ->)|(a & st1 & Hr & Hk)].
  - apply (Hm st (Raise e) st' Hall Hr).
  - apply (Hf a st1 r st'); [|done]. apply (Hm st (Ok a) st1 Hall Hr).
Qed.

Lemma orderly_reads {A} (m : M A) : reads_config m → orderly m.
Proof.
  intros Hm st r st' Hall Hr.
  apply reads_config_run in Hr as [-> _]; [|done].
  destruct r; [done|]. exists (st_trace st), []. rewrite app_nil_r. simpl.
  split; [done|]. split; [lia|done].
Qed.

Lemma orderly_init timestamp : orderly (__init__ timestamp).
Proof.
  intros st r st' Hall Hr. apply init_trace in Hr. rewrite Hr.
  destruct r; [done|]. exists (st_trace st), []. rewrite app_nil_r. simpl.
  split; [done|]. split; [lia|done].
Qed.

Lemma orderly_call {A} (e : event) (r0 : result A) st r st' :
  (∀ a, r0 = Ok a → returned e) →
  Forall returned (st_trace st) →
  (r, st') = (r0, push st e) →
  match r with
  | Ok _ => Forall returned (st_trace st')
  | Raise _ =>
      ∃ done last, st_trace st' = done ++ last
                   ∧ length last ≤ 1 ∧ Forall returned done
  end.
Proof.
  intros Hok Hall [= -> ->]. destruct r0 as [a|x]; simpl.
  - apply Forall_app. split; [done|]. apply Forall_singleton. now apply (Hok a).
  - exists (st_trace st), [e]. simpl. split; [done|]. split; [lia|done].
Qed.

Lemma orderly_check_output cmd : orderly (check_output cmd).
Proof.
  intros st r st' Hall Hr. unfold check_output, emit in Hr. munfold in Hr.
  simpl in Hr. destruct (argv cmd) as [args|] eqn:Ha.
  - apply (orderly_call (CheckOutput cmd) (check_output_result args) st);
      [|done|now destruct (check_output_result args)].
    intros out Hout. simpl. eauto.
  - apply (orderly_call (CheckOutput cmd) (Raise TypeError : result string) st);
      [done|done|now symmetry].
Qed.

Lemma orderly_run cmd : orderly (run cmd).
Proof.
  intros st r st' Hall Hr. unfold run, emit in Hr. munfold in Hr.
  simpl in Hr. destruct (argv cmd) as [args|] eqn:Ha.
  - apply (orderly_call (Run cmd) (run_result args) st);
      [|done|now destruct (run_result args)].
    intros [] Hout. simpl. eauto.
  - apply (orderly_call (Run cmd) (Raise TypeError : result unit) st);
      [done|done|now symmetry].
Qed.

Lemma orderly_makedirs path : orderly (makedirs path).
Proof.
  intros st r st' Hall Hr. unfold makedirs, emit in Hr. munfold in Hr.
  simpl in Hr.
  apply (orderly_call (Makedirs path) (makedirs_result path) st);
    [|done|now destruct (makedirs_result path)].
  now intros [] Hout.
Qed.

Lemma orderly_save_file data path : orderly (save_file data path).
Proof.
  intros st r st' Hall Hr. unfold save_file, emit in Hr. munfold in Hr.
  simpl in Hr.
  apply (orderly_call (SaveFile data path) (save_file_result data path) st);
    [|done|now destruct (save_file_result data path)].
  now intros [] Hout.
Qed.

Ltac orderly_steps :=
  repeat first
    [apply orderly_init
    |apply orderly_check_output
    |apply orderly_run
    |apply orderly_makedirs
    |apply orderly_save_file
    |apply orderly_reads; solve [auto with reads]
    |apply orderly_bind; [|intros ?]
    |match goal with
     | |- orderly (if ?b then _ else _) => destruct b
     | |- orderly (match ?p with (_, _) => _ end) => destruct p
     end].

Lemma orderly_main timestamp : orderly (main timestamp).
Proof.
  unfold main, flameshot, kde_notify, kde_set_clipboard, xdg_open.
  orderly_steps.
Qed.

(** X4: [main] stops at the first external call that raises an exception.
    In the trace of any run, every call that is followed by another call
    returned without raising; and when [main] returns normally, every call
    did.  A [check_output] call raises when the program exits with a
    non-zero status; the [notify-send] call is made with [subprocess.run],
    which does not look at the exit status. *)
Theorem main_stops_at_first_exception timestamp config r st' :
  main timestamp (start config) = (r, st') →
  (∀ i e, st_trace st' !! i = Some e → S i < length (st_trace st') → returned e)
  ∧ (r = Ok tt → Forall returned (st_trace st')).
Proof.
  intros Hmain.
  pose proof (orderly_main timestamp (start config) r st' (Forall_nil_2 _) Hmain)
    as Hord.
  destruct r as [[]|x].
  - split; [|done]. intros i e Hi _.
    now apply (Forall_lookup_1 _ _ _ _ Hord Hi).
  - split; [|done]. destruct Hord as (done & last & Ht & Hlen & Hdone).
    intros i e Hi Hlt. rewrite Ht in Hi, Hlt. rewrite length_app in Hlt.
    rewrite lookup_app_l in Hi by lia.
    now apply (Forall_lookup_1 _ _ _ _ Hdone Hi).
Qed.

End discipline.

Section configuration_kept.
Context `{Platform} `{World}.
Import ScreenshotPaths.

Lemma keeps_config_bind {A B} (m : M A) (f : A → M B) :
  keeps_config m → (∀ a, keeps_config (f a)) → keeps_config (m ≫= f).
Proof.
  intros Hm Hf st r st' Hr.
  apply bind_inv in Hr as [(e & Hr & ->)|(a & st1 & Hr & Hk)].
  - apply (Hm _ _ _ Hr).
  - rewrite (Hf a _ _ _ Hk). apply (Hm _ _ _ Hr).
Qed.

Lemma keeps_config_reads {A} (m : M A) : reads_config m → keeps_config m.
Proof. intros Hm st r st' Hr. now apply reads_config_run in Hr as [-> _]. Qed.

Lemma keeps_config_check_output cmd : keeps_config (check_output cmd).
Proof. intros st r st' Hr. now apply check_output_inv in Hr as ->. Qed.

Lemma keeps_config_run cmd : keeps_config (run cmd).
Proof. intros st r st' Hr. now apply run_inv in Hr as ->. Qed.

Lemma keeps_config_makedirs path : keeps_config (makedirs path).
Proof. intros st r st' Hr. now apply makedirs_inv in Hr as ->. Qed.

Lemma keeps_config_save_file data path : keeps_config (save_file data path).
Proof. intros st r st' Hr. now apply save_file_inv in Hr as ->. Qed.

Ltac keeps_steps :=
  repeat first
    [apply keeps_config_check_output
    |apply keeps_config_run
    |apply keeps_config_makedirs
    |apply keeps_config_save_file
    |apply keeps_config_reads; solve [auto with reads]
    |apply keeps_config_bind; [|intros ?]
    |match goal with
     | |- keeps_config (if ?b then _ else _) => destruct b
     | |- keeps_config (match ?p with (_, _) => _ end) => destruct p
     end].

(** What the constructor does to the configuration, whatever it returns. *)
Lemma init_config timestamp st r st' :
  __init__ timestamp st = (r, st') →
  st_config st' = st_config st
  ∨ ∃ d dir, sftp_enabled_in (st_config st) d
             ∧ d !! "directory" = Some (SStr dir)
             ∧ Str.endswith Str.sep dir = false
             ∧ st_config st' = with_remote_directory (st_config st) d (dir +:+ "/").
Proof.
  intros Hi. destruct r as [self|e]; [|left; now apply init_raise in Hi as ->].
  destruct (truthy (sftp_enabled self)) eqn:He.
  - destruct (init_inv _ _ _ _ Hi He) as (d & dir & Hen & Hd & Hne & _ & ->).
    unfold normalized. destruct (Str.endswith Str.sep dir) eqn:Hend; [now left|].
    right. now exists d, dir.
  - left. now destruct (init_falsy_inv _ _ _ _ Hi He) as (_ & -> & _).
Qed.

(** X5: a run of [main] keeps every member of the configuration except
    [sftp], keeps the whole configuration unless publishing is enabled, and
    keeps every member of an [sftp] object except [directory]; a
    [directory] that is a string is kept or, with publishing enabled and no
    separator at its end, gets one separator appended. *)
Theorem main_changes_only_remote_directory timestamp config r st' :
  main timestamp (start config) = (r, st') →
  (∀ k, k ≠ "sftp" → st_config st' !! k = config !! k)
  ∧ ((∀ d, ¬ sftp_enabled_in config d) → st_config st' = config)
  ∧ (∀ d, config !! "sftp" = Some (VDict d) →
       ∃ d', st_config st' !! "sftp" = Some (VDict d')
             ∧ (∀ k, k ≠ "directory" → d' !! k = d !! k)
             ∧ (∀ dir, d !! "directory" = Some (SStr dir) →
                  d' !! "directory" = Some (SStr dir)
                  ∨ (sftp_enabled_in config d
                     ∧ Str.endswith Str.sep dir = false
                     ∧ d' !! "directory" = Some (SStr (dir +:+ "/"))))).
Proof.
  intros Hmain.
  assert (Hinit : st_config st' = config
                  ∨ ∃ st1 r0 st2, st_config st1 = config
                                  ∧ __init__ timestamp st1 = (r0, st2)
                                  ∧ st_config st' = st_config st2).
  { unfold main in Hmain.
    apply bind_inv in Hmain as [(e & Hm & _)|(raw & st1 & Hm & Hmain)];
      apply check_output_inv in Hm as ->; [now left|].
    right.
    apply bind_inv in Hmain as [(e & Hi & ->)|(paths & st2 & Hi & Hmain)].
    { eexists _, (Raise e), st'. split; [|split; [exact Hi|done]]. done. }
    eexists _, (Ok paths), st2. split; [|split; [exact Hi|]]; [done|].
    match type of Hmain with
    | ?m _ = _ => assert (Hk : keeps_config m); [|exact (Hk _ _ _ Hmain)]
    end.
    unfold kde_notify, kde_set_clipboard, xdg_open. keeps_steps. }
  destruct Hinit as [->|(st1 & r0 & st2 & <- & Hi & ->)].
  { split; [done|]. split; [done|]. intros d Hs. exists d. eauto. }
  split; [|split].
  - intros k Hk. destruct (init_config _ _ _ _ Hi) as [->|(d & dir & _ & _ & _ & ->)];
      [done|]. unfold with_remote_directory. now rewrite lookup_insert_ne.
  - intros Hoff. destruct (init_config _ _ _ _ Hi) as [->|(d & dir & Hen & _)];
      [done|]. now destruct (Hoff d).
  - intros d Hs. destruct (init_sftp_object _ _ _ _ d Hi Hs) as (d' & Hs' & Hk & Hd).
    exists d'. split; [done|]. split; [done|]. intros dir Hdir.
    rewrite (Hd dir Hdir). destruct r0 as [self|e]; [|now left].
    destruct (truthy (sftp_enabled self)) eqn:He; [|now left].
    destruct (Str.endswith Str.sep dir) eqn:Hend; [now left|]. right.
    destruct (init_inv _ _ _ _ Hi He) as (d0 & dir0 & Hen & _).
    destruct Hen as [Hs0 Hen]. rewrite Hs in Hs0. injection Hs0 as <-. done.
Qed.

End configuration_kept.

(** ** Whole runs of [main] *)

Ltac st_norm :=
  unfold bare, push, start in *; cbn [st_config st_trace app] in *.

(** Every event of an explicit trace satisfies the test of the goal. *)
Ltac all_events :=
  let ev := fresh "ev" in
  let Hev := fresh "Hev" in
  intros ev Hev; st_norm;
  repeat (apply elem_of_cons in Hev as [->|Hev]; [reflexivity|]);
  now apply elem_of_nil in Hev.

Ltac try_call Hmain inv :=
  let e := fresh "e" in
  let Hm := fresh "Hm" in
  let a := fresh "a" in
  let st1 := fresh "st" in
  apply bind_inv in Hmain as [(e & Hm & ->)|(a & st1 & Hm & Hmain)];
  apply inv in Hm as ->.

Ltac try_read Hmain :=
  let e := fresh "e" in
  let Hm := fresh "Hm" in
  let a := fresh "a" in
  let st1 := fresh "st" in
  apply bind_inv in Hmain as [(e & Hm & ->)|(a & st1 & Hm & Hmain)];
  pure_step Hm; st_norm.

Ltac ok_bind Hmain :=
  let e := fresh "e" in
  let Hm := fresh "Hm" in
  let a := fresh "a" in
  let st1 := fresh "st" in
  apply bind_inv in Hmain as [(e & Hm & [=])|(a & st1 & Hm & Hmain)].

Ltac ok_call Hmain inv :=
  let e := fresh "e" in
  let Hm := fresh "Hm" in
  let a := fresh "a" in
  let st1 := fresh "st" in
  apply bind_inv in Hmain as [(e & Hm & [=])|(a & st1 & Hm & Hmain)];
  apply inv in Hm as ->.

Ltac ok_read Hmain :=
  let e := fresh "e" in
  let Hm := fresh "Hm" in
  let a := fresh "a" in
  let st1 := fresh "st" in
  apply bind_inv in Hmain as [(e & Hm & [=])|(a & st1 & Hm & Hmain)];
  pure_step Hm; st_norm.

Ltac same_results :=
  repeat match goal with
  | H1 : ?m = (Ok ?x, ?s), H2 : ?m = (Ok ?y, ?s) |- _ =>
      assert (y = x) by congruence; subst y; clear H2
  end.

Section whole_runs.
Context `{Platform} `{World}.
Import ScreenshotPaths.

Lemma init_other_members timestamp st r st' k :
  __init__ timestamp st = (r, st') → k ≠ "sftp" →
  st_config st' !! k = st_config st !! k.
Proof.
  intros Hi Hk. destruct (init_config _ _ _ _ Hi) as [->|(d & dir & _ & _ & _ & ->)];
    [done|]. unfold with_remote_directory. now rewrite lookup_insert_ne.
Qed.

Lemma local_path_raises self st :
  st_config st !! "fname" = None ∨ st_config st !! "directory" = None →
  ∃ e, local_path self st = (Raise e, st).
Proof.
  intros Hmiss. unfold local_path, formatted_relative_path. munfold. simpl.
  destruct (st_config st !! "directory") as [[[| | |dir]|d]|] eqn:Hd; eauto.
  destruct Hmiss as [Hf|?]; [|done]. rewrite Hf. eauto.
Qed.

(** X6: when the configuration has no [fname] or no [directory], [main]
    raises after the screenshot has been taken: the capture is the only
    call it makes, nothing is saved and nothing is published. *)
Theorem main_without_template timestamp config r st' :
  config !! "fname" = None ∨ config !! "directory" = None →
  main timestamp (start config) = (r, st') →
  (∃ e, r = Raise e) ∧ st_trace st' = [flameshot_call].
Proof.
  intros Hmiss Hmain. unfold main in Hmain.
  try_call Hmain check_output_inv; [eauto|].
  bind_step Hmain.
  { apply init_raise in Hm as ->. eauto. }
  pose proof (init_trace _ _ _ _ Hm) as Htr.
  destruct (local_path_raises a0 st) as [e He].
  { rewrite !(init_other_members _ _ _ _ _ Hm) by done. exact Hmiss. }
  unfold local_folder in Hmain.
  rewrite (bind_raise _ _ _ _ _ (bind_raise _ _ _ _ _ He)) in Hmain.
  injection Hmain as <- <-. split; [eauto|]. exact Htr.
Qed.

Lemma check_output_result_ok cmd args st out st' :
  argv cmd = Some args →
  check_output cmd st = (Ok out, st') →
  check_output_result args = Ok out.
Proof.
  intros Ha. unfold check_output, emit. munfold. simpl. rewrite Ha.
  destruct (check_output_result args); now intros [= <- _].
Qed.

Lemma local_folder_eq self st path :
  local_path self st = (Ok path, st) →
  local_folder self st = (Ok (Posixpath.dirname path), st).
Proof. intros Hp. unfold local_folder. now rewrite (bind_ok _ _ _ _ _ Hp). Qed.

Lemma enabled_flag_get config st c st' :
  get_method (default (VDict ∅) (config !! "sftp")) "enabled" (SBool false) st
  = (Ok c, st') →
  c = enabled_flag config.
Proof.
  unfold enabled_flag, get_method.
  destruct (default (VDict ∅) (config !! "sftp")); [done|]. now intros [= <- _].
Qed.

(** X7: with remote publishing disabled, no run of [main], however it
    ends, makes a call to [ssh], [rsync] or the clipboard. *)
Theorem main_disabled_stays_local timestamp config r st' :
  sftp_disabled_in config →
  main timestamp (start config) = (r, st') →
  ∀ e, e ∈ st_trace st' → is_publishing_call e = false.
Proof.
  intros Hdis Hmain. unfold main in Hmain.
  destruct (init_disabled_eq timestamp (start config) Hdis) as [_ He].
  try_call Hmain check_output_inv; [all_events|].
  bind_step Hmain.
  { apply init_raise in Hm as ->. all_events. }
  match goal with
  | Hg : __init__ _ ?s = _ |- _ =>
      destruct (init_disabled_eq timestamp s Hdis) as [Hi _];
      rewrite Hi in Hg; injection Hg as <- <-; clear Hi
  end.
  st_norm.
  try_read Hmain; [all_events|]. try_call Hmain makedirs_inv; [all_events|].
  try_read Hmain; [all_events|]. try_call Hmain save_file_inv; [all_events|].
  try_read Hmain; [all_events|]. try_read Hmain; [all_events|].
  try_read Hmain; [all_events|]. try_read Hmain; [all_events|].
  match goal with Hg : get_config _ = (Ok ?c, _) |- _ => injection Hg as <- end.
  try_read Hmain; [all_events|].
  match goal with
  | Hg : get_method _ "enabled" _ _ = (Ok ?c, _) |- _ =>
      apply enabled_flag_get in Hg as ->
  end.
  rewrite He in Hmain. try_read Hmain; [all_events|].
  match goal with Hg : mret _ _ = (Ok ?c, _) |- _ => injection Hg as <- end.
  cbn beta iota in Hmain.
  fold (notify_on config) (open_on config) in Hmain.
  destruct (notify_on config);
    [unfold kde_notify in Hmain; try_call Hmain run_inv; [all_events|]
    |try_read Hmain; [all_events|]];
    (destruct (_ && _);
     [apply xdg_open_inv in Hmain as ->|injection Hmain as _ <-]);
    all_events.
Qed.

(** X8: a run of [main] that returns normally with remote publishing
    disabled has left the configuration alone and made exactly these calls,
    in this order: the capture; [makedirs] on the directory part of
    [local_path]; the write of the captured bytes to [local_path]; the
    notification with the file name as title and [local_path] as body, when
    [notify] is set; [xdg-open] on [local_path], when [open] is set and the
    path is not empty. *)
Theorem main_success_without_publishing timestamp config st' :
  sftp_disabled_in config →
  main timestamp (start config) = (Ok tt, st') →
  ∃ self data path base,
    __init__ timestamp (start config) = (Ok self, start config)
    ∧ check_output_result ["flameshot"; "gui"; "-r"] = Ok data
    ∧ local_path self (start config) = (Ok path, start config)
    ∧ relative_basename self (start config) = (Ok base, start config)
    ∧ st_config st' = config
    ∧ st_trace st'
      = [flameshot_call; Makedirs (Posixpath.dirname path); SaveFile data path]
        ++ (if notify_on config then [notify_call base path] else [])
        ++ (if negb (String.eqb path "") && open_on config
            then [open_call path] else []).
Proof.
  intros Hdis Hmain. unfold main in Hmain.
  destruct (init_disabled_eq timestamp (start config) Hdis) as [Hinit He].
  ok_bind Hmain.
  match goal with
  | Hg : flameshot _ = (Ok ?d, _) |- _ =>
      pose proof (check_output_result_ok
                    [SStr "flameshot"; SStr "gui"; SStr "-r"]
                    ["flameshot"; "gui"; "-r"] _ _ _ eq_refl Hg) as Hdata;
      apply check_output_inv in Hg as ->
  end.
  ok_bind Hmain.
  match goal with
  | Hg : __init__ _ ?s = _ |- _ =>
      destruct (init_disabled_eq timestamp s Hdis) as [Hi _];
      rewrite Hi in Hg; injection Hg as <- <-; clear Hi
  end.
  st_norm. set (self := {| dt := timestamp; sftp_enabled := _ |}) in *.
  ok_read Hmain. ok_call Hmain makedirs_inv.
  ok_read Hmain. ok_call Hmain save_file_inv.
  ok_read Hmain. ok_read Hmain. ok_read Hmain. ok_read Hmain.
  match goal with Hg : get_config _ = (Ok ?c, _) |- _ => injection Hg as <- end.
  ok_read Hmain. same_results.
  match goal with
  | Hg : get_method _ "enabled" _ _ = (Ok ?c, _) |- _ =>
      apply enabled_flag_get in Hg as ->
  end.
  rewrite He in Hmain. ok_read Hmain.
  match goal with Hg : mret _ _ = (Ok ?c, _) |- _ => injection Hg as <- end.
  cbn beta iota in Hmain.
  fold (notify_on config) (open_on config) in Hmain.
  match goal with
  | Hp : local_path _ _ = (Ok ?p, _), Hb : relative_basename _ _ = (Ok ?b, _),
    Hf : local_folder _ _ = (Ok ?f, _), Hd : check_output_result _ = Ok ?d |- _ =>
      exists self, d, p, b; split; [exact Hinit|]; split; [exact Hd|];
      split; [exact Hp|]; split; [exact Hb|];
      rewrite (local_folder_eq _ _ _ Hp) in Hf; injection Hf as <-
  end.
  cbn [truthy] in Hmain.
  destruct (notify_on config);
    [unfold kde_notify in Hmain; ok_call Hmain run_inv|ok_read Hmain];
    (destruct (_ && open_on config);
     [apply xdg_open_inv in Hmain as ->|injection Hmain as <-]);
    st_norm; done.
Qed.

Lemma py_str_nonempty b rel :
  truthy b = true → String.eqb (py_str b +:+ rel) "" = false.
Proof.
  intros Hb. apply String.eqb_neq. destruct b as [|[]|n|s]; try done.
  - simpl. destruct (Z.to_int n) as [u|u]; simpl; [|done].
    destruct u; done.
  - simpl in *. destruct s; done.
Qed.

Lemma remote_url_inv self st d b o st' :
  truthy (sftp_enabled self) = true →
  st_config st !! "sftp" = Some (VDict d) →
  default SNone (d !! "baseurl") = b →
  truthy b = true →
  remote_url self st = (Ok o, st') →
  ∃ rel, formatted_relative_path self st = (Ok rel, st)
         ∧ o = Some (py_str b +:+ rel).
Proof.
  intros He Hs Hb Ht. unfold remote_url. rewrite He. cbn [negb].
  munfold. simpl. rewrite Hs, Hb, Ht. simpl.
  pose proof (reads_formatted_relative_path self st) as Hr.
  rewrite Hr. destruct (fst _) as [rel|e]; [|done]. intros [= <- _]. eauto.
Qed.

Lemma remote_directory_Some self st o st' :
  truthy (sftp_enabled self) = true →
  remote_directory self st = (Ok o, st') → ∃ p, o = Some p.
Proof.
  intros He. unfold remote_directory. rewrite He. cbn [negb]. intros Hb.
  repeat (apply bind_inv in Hb as [(? & ? & ?)|(? & ? & ? & Hb)]; [done|]).
  injection Hb as <- _. eauto.
Qed.

Lemma remote_rsync_path_Some self st o st' :
  truthy (sftp_enabled self) = true →
  remote_rsync_path self st = (Ok o, st') → ∃ p, o = Some p.
Proof.
  intros He. unfold remote_rsync_path. rewrite He. cbn [negb]. intros Hb.
  repeat (apply bind_inv in Hb as [(? & ? & ?)|(? & ? & ? & Hb)]; [done|]).
  injection Hb as <- _. eauto.
Qed.

Lemma create_ssh_mkdir_cmd_ok path st d cmd st' :
  create_ssh_mkdir_cmd path st = (Ok cmd, st') →
  st_config st !! "sftp" = Some (VDict d) →
  ∃ key port user host,
    d !! "key" = Some key ∧ d !! "port" = Some port
    ∧ d !! "user" = Some user ∧ d !! "host" = Some host
    ∧ cmd = [SStr "ssh"; SStr "-i"; key; SStr "-p"; SStr (py_str port);
             SStr (py_str user +:+ "@" +:+ py_str host);
             SStr ("mkdir -p " +:+ py_str path)].
Proof.
  intros Hc Hs. revert Hc. unfold create_ssh_mkdir_cmd. munfold. simpl. rewrite Hs.
  destruct (d !! "key") as [key|]; [|done].
  destruct (d !! "port") as [port|]; [|done].
  destruct (d !! "user") as [user|]; [|done].
  destruct (d !! "host") as [host|]; [|done].
  intros [= <- _]. by exists key, port, user, host.
Qed.

(** X9: a run of [main] that returns normally with remote publishing
    enabled and a base URL has made exactly these calls, in this order: the
    capture; [makedirs] on the directory part of [local_path]; the write of
    the captured bytes to [local_path]; [ssh ... mkdir -p] on
    [remote_directory]; [rsync] from [local_path] to [remote_rsync_path];
    the clipboard call with [remote_url], when [clipboard] is set; the
    notification with the file name as title and [remote_url] as body, when
    [notify] is set; [xdg-open] on [remote_url], when [open] is set. *)
Theorem main_success_with_baseurl timestamp config d baseurl st' :
  sftp_enabled_in config d →
  d !! "baseurl" = Some baseurl →
  truthy baseurl = true →
  main timestamp (start config) = (Ok tt, st') →
  ∃ self st1 data path base directory address url key port user host,
    __init__ timestamp (start config) = (Ok self, st1)
    ∧ check_output_result ["flameshot"; "gui"; "-r"] = Ok data
    ∧ local_path self st1 = (Ok path, st1)
    ∧ relative_basename self st1 = (Ok base, st1)
    ∧ remote_directory self st1 = (Ok (Some directory), st1)
    ∧ remote_rsync_path self st1 = (Ok (Some address), st1)
    ∧ remote_url self st1 = (Ok (Some url), st1)
    ∧ d !! "key" = Some key ∧ d !! "port" = Some port
    ∧ d !! "user" = Some user ∧ d !! "host" = Some host
    ∧ st_config st' = st_config st1
    ∧ st_trace st'
      = [flameshot_call; Makedirs (Posixpath.dirname path); SaveFile data path;
         CheckOutput [SStr "ssh"; SStr "-i"; key; SStr "-p"; SStr (py_str port);
                      SStr (py_str user +:+ "@" +:+ py_str host);
                      SStr ("mkdir -p " +:+ directory)];
         CheckOutput (create_rsync_cmd (SStr path) (SStr address))]
        ++ (if truthy (default (SBool false) (d !! "clipboard"))
            then [clipboard_call url] else [])
        ++ (if notify_on config then [notify_call base url] else [])
        ++ (if open_on config then [open_call url] else []).
Proof.
  intros Hen Hb Htb Hmain. unfold main in Hmain.
  ok_bind Hmain.
  match goal with
  | Hg : flameshot _ = (Ok ?d, _) |- _ =>
      pose proof (check_output_result_ok
                    [SStr "flameshot"; SStr "gui"; SStr "-r"]
                    ["flameshot"; "gui"; "-r"] _ _ _ eq_refl Hg) as Hdata;
      apply check_output_inv in Hg as ->
  end.
  ok_bind Hmain.
  match goal with
  | Hg : __init__ _ _ = (Ok ?p, ?s) |- _ =>
      destruct (init_enabled_inv _ _ _ _ d Hg) as (dir & Hd & Hne & Hself & Hst);
      [done|]; clear Hg; rename p into self; rename s into st2
  end.
  pose proof (init_enabled timestamp (start config) d dir Hen Hd Hne) as Hinit.
  destruct Hen as [Hs He].
  destruct (normalized_lookup (start config) d dir Hs Hd Hne)
    as (d' & rbase & Hs' & Hd' & _ & _ & Hk & Hc & _).
  rewrite normalized_trace in Hst, Hinit. st_norm.
  set (c1 := st_config (normalized _ d dir)) in *.
  subst st2.
  assert (He' : truthy (sftp_enabled self) = true) by now rewrite Hself.
  rewrite <- Hself in Hinit. clear Hself.
  ok_read Hmain. ok_call Hmain makedirs_inv.
  ok_read Hmain. ok_call Hmain save_file_inv.
  ok_read Hmain. ok_read Hmain. ok_read Hmain. ok_read Hmain.
  match goal with Hg : get_config _ = (Ok ?c, _) |- _ => injection Hg as <- end.
  ok_read Hmain. same_results.
  match goal with
  | Hg : get_method _ "enabled" _ _ = (Ok ?c, _) |- _ =>
      rewrite Hs' in Hg; injection Hg as <-
  end.
  rewrite (Hk "enabled"), He in Hmain by done.
  apply bind_inv in Hmain as [(e & Hblock & [=])|(pair & stb & Hblock & Hmain)].
  ok_read Hblock. ok_read Hblock.
  match goal with
  | Hg : create_ssh_mkdir_cmd _ _ = (Ok ?c, _) |- _ =>
      destruct (create_ssh_mkdir_cmd_ok _ _ d' _ _ Hg Hs')
        as (key & port & user & host & Hkey & Hport & Huser & Hhost & ->);
      clear Hg
  end.
  ok_call Hblock check_output_inv.
  ok_read Hblock. ok_read Hblock. ok_call Hblock check_output_inv.
  ok_read Hblock. ok_read Hblock. ok_read Hblock. same_results.
  match goal with
  | Hg : getitem c1 "sftp" _ = (Ok ?c, _) |- _ =>
      unfold getitem in Hg; rewrite Hs' in Hg; injection Hg as <-
  end.
  match goal with
  | Hg : get_method _ "baseurl" _ _ = (Ok ?c, _) |- _ => injection Hg as <-
  end.
  match goal with
  | Hg : get_method _ "clipboard" _ _ = (Ok ?c, _) |- _ => injection Hg as <-
  end.
  rewrite (Hk "baseurl"), (Hk "clipboard"), Hb in Hblock by done.
  cbn [default from_option id] in Hblock. rewrite Htb, andb_true_r in Hblock.

  match goal with
  | Hg : remote_directory _ _ = (Ok ?o, _) |- _ =>
      destruct (remote_directory_Some _ _ _ _ He' Hg) as [directory ->]
  end.
  match goal with
  | Hg : remote_rsync_path _ _ = (Ok ?o, _) |- _ =>
      destruct (remote_rsync_path_Some _ _ _ _ He' Hg) as [address ->]
  end.
  match goal with
  | Hp : local_path _ _ = (Ok ?p, _), Hf : local_folder _ _ = (Ok ?f, _) |- _ =>
      rewrite (local_folder_eq _ _ _ Hp) in Hf; injection Hf as <-
  end.
  rewrite (Hk "key") in Hkey by done. rewrite (Hk "port") in Hport by done.
  rewrite (Hk "user") in Huser by done. rewrite (Hk "host") in Hhost by done.
  assert (Hurl : ∀ o s, remote_url self {| st_config := c1; st_trace := [] |}
                        = (Ok o, s) →
                        ∃ url, o = Some url ∧ String.eqb url "" = false).
  { intros o s Hu.
    destruct (remote_url_inv self {| st_config := c1; st_trace := [] |}
                d' baseurl o s He' Hs') as (rel & _ & ->);
      [now rewrite (Hk "baseurl"), Hb|done|exact Hu|].
    eexists. split; [done|]. now apply py_str_nonempty. }
  destruct (truthy (default (SBool false) (d !! "clipboard"))) eqn:Hflag;
    cbv iota in Hblock;
    apply bind_inv in Hblock as [(e & Hclip & [=])|(u & stc & Hclip & Hblock)].
  - apply bind_inv in Hclip as [(e & Hu & [=])|(o & stu & Hu & Hclip)].
    pure_step Hu. st_norm. destruct (Hurl _ _ Hu) as (url & -> & Hne').
    apply kde_set_clipboard_inv in Hclip as ->. st_norm.
    ok_read Hblock. ok_read Hblock. same_results.
    injection Hblock; intros; subst. cbn beta iota in Hmain.
    rewrite !Hc in Hmain by done.
    fold (notify_on config) (open_on config) in Hmain.
    cbn [truthy of_opt] in Hmain. rewrite Hne' in Hmain. cbn [negb andb] in Hmain.
    eexists self, _, _, _, _, directory, address, url, key, port, user, host.
    do 11 (split; [eassumption|]).
    destruct (notify_on config);
      [unfold kde_notify in Hmain; ok_call Hmain run_inv|ok_read Hmain];
      (destruct (open_on config);
       [apply xdg_open_inv in Hmain as ->|injection Hmain as <-]);
      st_norm; done.
  - pure_step Hclip. st_norm.
    ok_read Hblock.
    match goal with
    | Hg : remote_url _ _ = (Ok ?o, _) |- _ =>
        destruct (Hurl _ _ Hg) as (url & -> & Hne')
    end.
    ok_read Hblock. same_results.
    injection Hblock; intros; subst. cbn beta iota in Hmain.
    rewrite !Hc in Hmain by done.
    fold (notify_on config) (open_on config) in Hmain.
    cbn [truthy of_opt] in Hmain. rewrite Hne' in Hmain. cbn [negb andb] in Hmain.
    eexists self, _, _, _, _, directory, address, url, key, port, user, host.
    do 11 (split; [eassumption|]).
    destruct (notify_on config);
      [unfold kde_notify in Hmain; ok_call Hmain run_inv|ok_read Hmain];
      (destruct (open_on config);
       [apply xdg_open_inv in Hmain as ->|injection Hmain as <-]);
      st_norm; done.
Qed.

End whole_runs.

(** ** Absolute templates and the home directory *)

Section templates_and_home.
Context `{Platform}.
Import ScreenshotPaths.

Lemma join_absolute_right a b : Str.startswith "/" b = true → Posixpath.join a b = b.
Proof. intros Hb. unfold Posixpath.join. now rewrite Hb. Qed.

Lemma dirname_absolute p :
  Str.startswith "/" p = true → Str.startswith "/" (Posixpath.dirname p) = true.
Proof.
  intros Hp. rewrite startswith_sep in Hp.
  destruct p as [|a p]; [done|]. apply Ascii.eqb_eq in Hp as ->.
  assert (Hc : Str.contains Str.sep (String Str.sep p) = true)
    by reflexivity.
  destruct (split_last_sep _ Hc) as (h & Ht & _ & Hsplit & _).
  unfold Posixpath.dirname. rewrite Ht.
  assert (Hhead : ∃ t, h +:+ "/" = String Str.sep t).
  { destruct h as [|x h]; [now exists ""|].
    simpl in Hsplit. injection Hsplit as <- _. now eexists. }
  destruct Hhead as [t Hhead]. rewrite Hhead.
  destruct (_ && _) eqn:Hb; [|now rewrite startswith_sep, Ascii.eqb_refl].
  apply andb_true_iff in Hb as [_ Hb].
  apply negb_true_iff, String.eqb_neq in Hb.
  cbn [Str.rstrip]. destruct (Str.rstrip Str.sep t) eqn:Hr.
  - exfalso. apply Hb. simpl. f_equal. now apply rstrip_empty.
  - rewrite startswith_sep. apply Ascii.eqb_refl.
Qed.

(** X10: when the template formats to a path that begins with a separator,
    the configured directories are dropped: [local_path] is that path
    itself, and with publishing enabled [remote_directory] is its directory
    part, not a directory under the remote base directory. *)
Theorem absolute_template_ignores_directories self st rel dir :
  formatted_relative_path self st = (Ok rel, st) →
  Str.startswith "/" rel = true →
  st_config st !! "directory" = Some (VScalar (SStr dir)) →
  local_path self st = (Ok rel, st)
  ∧ ∀ d base,
      truthy (sftp_enabled self) = true →
      st_config st !! "sftp" = Some (VDict d) →
      d !! "directory" = Some (SStr base) →
      remote_directory self st = (Ok (Some (Posixpath.dirname rel)), st)
      ∧ remote_path self st
        = (Ok (Some (Posixpath.join (Posixpath.dirname rel)
                                    (Posixpath.basename rel))), st).
Proof.
  intros Hf Hrel Hdir. split.
  - rewrite (local_path_eq _ _ _ _ Hdir Hf). now rewrite join_absolute_right.
  - intros d base He Hs Hd.
    rewrite (remote_directory_eq _ _ _ _ _ He Hs Hd Hf).
    rewrite (remote_path_eq _ _ _ _ _ He Hs Hd Hf).
    now rewrite (join_absolute_right base _ (dirname_absolute _ Hrel)).
Qed.

Lemma append_sep_nonempty s t : String.eqb (s +:+ String "/" t) "" = false.
Proof. apply String.eqb_neq. now destruct s. Qed.

Lemma expanduser_home_relative rest :
  expanduser (String "~" (String "/" rest))
  = match environ_HOME with
    | Some home => Str.rstrip Str.sep home +:+ String "/" rest
    | None =>
        match getpwuid_dir with
        | Some home => Str.rstrip Str.sep home +:+ String "/" rest
        | None => String "~" (String "/" rest)
        end
    end.
Proof.
  assert (Hstart : Str.startswith "~" (String "~" (String "/" rest)) = true).
  { unfold Str.startswith. cbn [String.prefix].
    destruct (ascii_dec "~" "~"); [reflexivity|done]. }
  assert (Hfind : Str.find_from Str.sep 1 (String "~" (String "/" rest)) = 1%Z).
  { cbn [Str.find_from]. unfold Str.sep. now rewrite Ascii.eqb_refl. }
  unfold expanduser. rewrite Hstart, Hfind. simpl.
  destruct environ_HOME as [home|]; [now rewrite append_sep_nonempty|].
  destruct getpwuid_dir as [home|]; [now rewrite append_sep_nonempty|done].
Qed.

(** X11: the configuration file is looked for under the home directory:
    [$HOME] when it is set, else the home of the current user in the
    password database, each without its trailing separators; when neither
    is known the path is left with its tilde.  No other user's home is ever
    looked up, and the argument is not used. *)
Theorem get_config_location_home {A} (args : A) :
  get_config_location args
  = match environ_HOME with
    | Some home =>
        Str.rstrip Str.sep home +:+ "/.config/oroddlokken/flameshot-helper.json"
    | None =>
        match getpwuid_dir with
        | Some home =>
            Str.rstrip Str.sep home +:+ "/.config/oroddlokken/flameshot-helper.json"
        | None => "~/.config/oroddlokken/flameshot-helper.json"
        end
    end.
Proof.
  unfold get_config_location, DEFAULT_CONFIG_LOCATION.
  apply (expanduser_home_relative ".config/oroddlokken/flameshot-helper.json").
Qed.

(** X12: a local directory written as ["~/..."] is put under [$HOME], taken
    without its trailing separators, before the formatted template is
    joined to it. *)
Theorem local_path_expands_home self st rest rel home :
  st_config st !! "directory" = Some (VScalar (SStr (String "~" (String "/" rest)))) →
  formatted_relative_path self st = (Ok rel, st) →
  environ_HOME = Some home →
  local_path self st
  = (Ok (Posixpath.join (Str.rstrip Str.sep home +:+ String "/" rest) rel), st).
Proof.
  intros Hdir Hf Hhome. rewrite (local_path_eq _ _ _ _ Hdir Hf).
  now rewrite expanduser_home_relative, Hhome.
Qed.

End templates_and_home.

(** ** Instances of the theorems on outcomes and whole runs *)

Example failing_upload_trace :
  fst failing_run = Raise CalledProcessError
  ∧ st_trace (snd failing_run)
    = [flameshot_call;
       Makedirs "/tmp/shots/2024/03/05";
       SaveFile "" "/tmp/shots/2024/03/05/142201.png";
       CheckOutput [SStr "ssh"; SStr "-i"; SStr "/home/user/.ssh/id_ed25519";
                    SStr "-p"; SStr "22"; SStr "user@host";
                    SStr "mkdir -p /srv/shots/2024/03/05"];
       CheckOutput (create_rsync_cmd (SStr "/tmp/shots/2024/03/05/142201.png")
                      (SStr "user@host:/srv/shots/2024/03/05/142201.png"))].
Proof. vm_compute. split; reflexivity. Qed.

Lemma init_idempotent_witness :
  ScreenshotPaths.__init__ (stamp 1) (published "%Y/%m/%d/%H%M%S.png" SNone)
  = (Ok {| ScreenshotPaths.dt := stamp 1;
           ScreenshotPaths.sftp_enabled :=
             ScreenshotPaths.sftp_enabled published_paths |},
     published "%Y/%m/%d/%H%M%S.png" SNone).
Proof.
  apply (init_idempotent (stamp 0)
           (start (publishing "%Y/%m/%d/%H%M%S.png" "/srv/shots" SNone))
           published_paths (published "%Y/%m/%d/%H%M%S.png" SNone) (stamp 1)).
  vm_compute. reflexivity.
Defined.

Lemma init_failure_witness :
  ScreenshotPaths.__init__ (stamp 0) (start (sftp_only_scalar (SStr "on")))
  = (Raise AttributeError, start (sftp_only_scalar (SStr "on")))
  ∧ ScreenshotPaths.__init__ (stamp 0) (start (sftp_only {[ "enabled" := SBool true ]}))
    = (Raise KeyError, start (sftp_only {[ "enabled" := SBool true ]}))
  ∧ ScreenshotPaths.__init__ (stamp 0)
      (start (sftp_only {[ "enabled" := SBool true; "directory" := SInt 5 ]}))
    = (Raise TypeError,
       start (sftp_only {[ "enabled" := SBool true; "directory" := SInt 5 ]})).
Proof.
  split; [|split].
  - apply (proj1 (proj2 (init_failure (stamp 0)
                           (start (sftp_only_scalar (SStr "on")))))
             (SStr "on")).
    vm_compute. reflexivity.
  - apply (proj1 (proj2 (proj2 (init_failure (stamp 0)
                                  (start (sftp_only {[ "enabled" := SBool true ]})))))
             {[ "enabled" := SBool true ]}).
    + split; vm_compute; reflexivity.
    + vm_compute. reflexivity.
  - apply (proj2 (proj2 (proj2 (init_failure (stamp 0)
             (start (sftp_only {[ "enabled" := SBool true; "directory" := SInt 5 ]})))))
             {[ "enabled" := SBool true; "directory" := SInt 5 ]} (SInt 5)).
    + split; vm_compute; reflexivity.
    + vm_compute. reflexivity.
    + right. right. now exists 5%Z.
Defined.

Lemma init_changes_only_remote_directory_witness :
  st_trace (published "%Y/%m/%d/%H%M%S.png" SNone)
  = st_trace (start (publishing "%Y/%m/%d/%H%M%S.png" "/srv/shots" SNone))
  ∧ published_paths
    = {| ScreenshotPaths.dt := stamp 0;
         ScreenshotPaths.sftp_enabled :=
           enabled_flag
             (st_config (start (publishing "%Y/%m/%d/%H%M%S.png" "/srv/shots" SNone))) |}
  ∧ (∀ k, k ≠ "sftp" →
       st_config (published "%Y/%m/%d/%H%M%S.png" SNone) !! k
       = st_config (start (publishing "%Y/%m/%d/%H%M%S.png" "/srv/shots" SNone)) !! k)
  ∧ (truthy (ScreenshotPaths.sftp_enabled published_paths) = false →
       published "%Y/%m/%d/%H%M%S.png" SNone
       = start (publishing "%Y/%m/%d/%H%M%S.png" "/srv/shots" SNone))
  ∧ (∀ d,
       st_config (start (publishing "%Y/%m/%d/%H%M%S.png" "/srv/shots" SNone))
         !! "sftp" = Some (VDict d) →
       ∃ d', st_config (published "%Y/%m/%d/%H%M%S.png" SNone) !! "sftp"
             = Some (VDict d')
             ∧ (∀ k, k ≠ "directory" → d' !! k = d !! k)
             ∧ (∀ dir, truthy (ScreenshotPaths.sftp_enabled published_paths) = true →
                  d !! "directory" = Some (SStr dir) →
                  d' !! "directory"
                  = Some (SStr (if Str.endswith Str.sep dir then dir
                                else dir +:+ "/")))).
Proof.
  apply (init_changes_only_remote_directory (stamp 0)
           (start (publishing "%Y/%m/%d/%H%M%S.png" "/srv/shots" SNone))
           published_paths (published "%Y/%m/%d/%H%M%S.png" SNone)).
  vm_compute. reflexivity.
Defined.

Lemma main_stops_at_first_exception_witness :
  (∀ i e, st_trace (snd failing_run) !! i = Some e →
          S i < length (st_trace (snd failing_run)) →
          returned (H := failing_rsync_world) e)
  ∧ (fst failing_run = Ok tt →
     Forall (returned (H := failing_rsync_world)) (st_trace (snd failing_run))).
Proof.
  apply (@main_stops_at_first_exception table_platform failing_rsync_world (stamp 0)
           (publishing "%Y/%m/%d/%H%M%S.png" "/srv/shots" SNone)
           (fst failing_run) (snd failing_run)).
  vm_compute. reflexivity.
Defined.

Lemma main_changes_only_remote_directory_witness :
  (∀ k, k ≠ "sftp" →
     st_config (snd (reference_run
                       (publishing "%Y/%m/%d/%H%M%S.png" "/srv/shots" SNone))) !! k
     = publishing "%Y/%m/%d/%H%M%S.png" "/srv/shots" SNone !! k)
  ∧ ((∀ d, ¬ sftp_enabled_in
               (publishing "%Y/%m/%d/%H%M%S.png" "/srv/shots" SNone) d) →
     st_config (snd (reference_run
                       (publishing "%Y/%m/%d/%H%M%S.png" "/srv/shots" SNone)))
     = publishing "%Y/%m/%d/%H%M%S.png" "/srv/shots" SNone)
  ∧ (∀ d, publishing "%Y/%m/%d/%H%M%S.png" "/srv/shots" SNone !! "sftp"
          = Some (VDict d) →
       ∃ d', st_config (snd (reference_run
                               (publishing "%Y/%m/%d/%H%M%S.png" "/srv/shots" SNone)))
               !! "sftp" = Some (VDict d')
             ∧ (∀ k, k ≠ "directory" → d' !! k = d !! k)
             ∧ (∀ dir, d !! "directory" = Some (SStr dir) →
                  d' !! "directory" = Some (SStr dir)
                  ∨ (sftp_enabled_in
                       (publishing "%Y/%m/%d/%H%M%S.png" "/srv/shots" SNone) d
                     ∧ Str.endswith Str.sep dir = false
                     ∧ d' !! "directory" = Some (SStr (dir +:+ "/"))))).
Proof.
  apply (@main_changes_only_remote_directory table_platform quiet_world (stamp 0)
           (publishing "%Y/%m/%d/%H%M%S.png" "/srv/shots" SNone)
           (fst (reference_run (publishing "%Y/%m/%d/%H%M%S.png" "/srv/shots" SNone)))).
  vm_compute. reflexivity.
Defined.

Lemma main_without_template_witness :
  (∃ e, fst (reference_run no_template) = Raise e)
  ∧ st_trace (snd (reference_run no_template)) = [flameshot_call].
Proof.
  apply (@main_without_template table_platform quiet_world (stamp 0) no_template).
  - left. vm_compute. reflexivity.
  - vm_compute. reflexivity.
Defined.

Lemma main_disabled_stays_local_witness :
  Forall (λ e, is_publishing_call e = false)
    (st_trace (snd (reference_run local_notifying))).
Proof.
  apply Forall_forall.
  apply (@main_disabled_stays_local table_platform quiet_world (stamp 0)
           local_notifying (fst (reference_run local_notifying))).
  - left. vm_compute. reflexivity.
  - vm_compute. reflexivity.
Defined.

Lemma main_success_without_publishing_witness :
  ∃ self data path base,
    ScreenshotPaths.__init__ (stamp 0) (start local_notifying)
    = (Ok self, start local_notifying)
    ∧ check_output_result (World := quiet_world) ["flameshot"; "gui"; "-r"] = Ok data
    ∧ ScreenshotPaths.local_path self (start local_notifying)
      = (Ok path, start local_notifying)
    ∧ ScreenshotPaths.relative_basename self (start local_notifying)
      = (Ok base, start local_notifying)
    ∧ st_config (snd (reference_run local_notifying)) = local_notifying
    ∧ st_trace (snd (reference_run local_notifying))
      = [flameshot_call; Makedirs (Posixpath.dirname path); SaveFile data path]
        ++ (if notify_on local_notifying then [notify_call base path] else [])
        ++ (if negb (String.eqb path "") && open_on local_notifying
            then [open_call path] else []).
Proof.
  apply (@main_success_without_publishing table_platform quiet_world (stamp 0)
           local_notifying (snd (reference_run local_notifying))).
  - left. vm_compute. reflexivity.
  - vm_compute. reflexivity.
Defined.

Lemma main_success_with_baseurl_witness :
  ∃ self st1 data path base directory address url key port user host,
    ScreenshotPaths.__init__ (stamp 0)
      (start (publishing "%Y/%m/%d/%H%M%S.png" "/srv/shots"
                (SStr "https://img.example.com/")))
    = (Ok self, st1)
    ∧ check_output_result (World := quiet_world) ["flameshot"; "gui"; "-r"] = Ok data
    ∧ ScreenshotPaths.local_path self st1 = (Ok path, st1)
    ∧ ScreenshotPaths.relative_basename self st1 = (Ok base, st1)
    ∧ ScreenshotPaths.remote_directory self st1 = (Ok (Some directory), st1)
    ∧ ScreenshotPaths.remote_rsync_path self st1 = (Ok (Some address), st1)
    ∧ ScreenshotPaths.remote_url self st1 = (Ok (Some url), st1)
    ∧ example_sftp "/srv/shots" (SStr "https://img.example.com/") !! "key" = Some key
    ∧ example_sftp "/srv/shots" (SStr "https://img.example.com/") !! "port" = Some port
    ∧ example_sftp "/srv/shots" (SStr "https://img.example.com/") !! "user" = Some user
    ∧ example_sftp "/srv/shots" (SStr "https://img.example.com/") !! "host" = Some host
    ∧ st_config (snd (reference_run
                        (publishing "%Y/%m/%d/%H%M%S.png" "/srv/shots"
                           (SStr "https://img.example.com/"))))
      = st_config st1
    ∧ st_trace (snd (reference_run
                       (publishing "%Y/%m/%d/%H%M%S.png" "/srv/shots"
                          (SStr "https://img.example.com/"))))
      = [flameshot_call; Makedirs (Posixpath.dirname path); SaveFile data path;
         CheckOutput [SStr "ssh"; SStr "-i"; key; SStr "-p"; SStr (py_str port);
                      SStr (py_str user +:+ "@" +:+ py_str host);
                      SStr ("mkdir -p " +:+ directory)];
         CheckOutput (create_rsync_cmd (SStr path) (SStr address))]
        ++ (if truthy (default (SBool false)
                         (example_sftp "/srv/shots" (SStr "https://img.example.com/")
                            !! "clipboard"))
            then [clipboard_call url] else [])
        ++ (if notify_on (publishing "%Y/%m/%d/%H%M%S.png" "/srv/shots"
                            (SStr "https://img.example.com/"))
            then [notify_call base url] else [])
        ++ (if open_on (publishing "%Y/%m/%d/%H%M%S.png" "/srv/shots"
                          (SStr "https://img.example.com/"))
            then [open_call url] else []).
Proof.
  apply (@main_success_with_baseurl table_platform quiet_world (stamp 0)
           (publishing "%Y/%m/%d/%H%M%S.png" "/srv/shots"
              (SStr "https://img.example.com/"))
           (example_sftp "/srv/shots" (SStr "https://img.example.com/"))
           (SStr "https://img.example.com/")).
  - split; vm_compute; reflexivity.
  - vm_compute. reflexivity.
  - reflexivity.
  - vm_compute. reflexivity.
Defined.

Lemma absolute_template_ignores_directories_witness :
  ScreenshotPaths.local_path published_paths (published "/var/tmp/%H%M%S.png" SNone)
  = (Ok "/var/tmp/142201.png", published "/var/tmp/%H%M%S.png" SNone)
  ∧ ∀ d base,
      truthy (ScreenshotPaths.sftp_enabled published_paths) = true →
      st_config (published "/var/tmp/%H%M%S.png" SNone) !! "sftp" = Some (VDict d) →
      d !! "directory" = Some (SStr base) →
      ScreenshotPaths.remote_directory published_paths
        (published "/var/tmp/%H%M%S.png" SNone)
      = (Ok (Some (Posixpath.dirname "/var/tmp/142201.png")),
         published "/var/tmp/%H%M%S.png" SNone)
      ∧ ScreenshotPaths.remote_path published_paths
          (published "/var/tmp/%H%M%S.png" SNone)
        = (Ok (Some (Posixpath.join (Posixpath.dirname "/var/tmp/142201.png")
                                    (Posixpath.basename "/var/tmp/142201.png"))),
           published "/var/tmp/%H%M%S.png" SNone).
Proof.
  apply (@absolute_template_ignores_directories table_platform published_paths
           (published "/var/tmp/%H%M%S.png" SNone) "/var/tmp/142201.png"
           "/tmp/shots").
  - vm_compute. reflexivity.
  - reflexivity.
  - vm_compute. reflexivity.
Defined.

Lemma local_path_expands_home_witness :
  ScreenshotPaths.local_path local_paths (start home_config)
  = (Ok (Posixpath.join (Str.rstrip Str.sep "/home/user" +:+ String "/" "Pictures")
           "2024/03/05/142201.png"),
     start home_config).
Proof.
  apply (@local_path_expands_home table_platform local_paths (start home_config)
           "Pictures" "2024/03/05/142201.png" "/home/user").
  - vm_compute. reflexivity.
  - vm_compute. reflexivity.
  - reflexivity.
Defined.

Example local_path_under_home :
  fst (ScreenshotPaths.local_path local_paths (start home_config))
  = Ok "/home/user/Pictures/2024/03/05/142201.png".
Proof. vm_compute. reflexivity. Qed.

Example absolute_template_paths :
  fst (ScreenshotPaths.remote_directory published_paths
         (published "/var/tmp/%H%M%S.png" SNone)) = Ok (Some "/var/tmp")
  ∧ fst (ScreenshotPaths.remote_rsync_path published_paths
           (published "/var/tmp/%H%M%S.png" SNone))
    = Ok (Some "user@host:/srv/shots//var/tmp/142201.png").
Proof. vm_compute. split; reflexivity. Qed.
